(** * codemirror: the synchronisation controller of [src/extension.ts]

  A shallow embedding of the extension's controller: the module-level
  variables ([remoteHosts], [currentHost], [lastSyncExecutionTime],
  [deletionMode]) become one record threaded through a state monad, the
  editor, the key-value storage and the two external processes (rsync and
  ssh) become a [World] of answers plus a chronological [trace] of the
  calls made to them.

  JavaScript strings are sequences of UTF-16 code units, so a string is a
  [list N] here and every string primitive the source uses ([split],
  [startsWith], [endsWith], [substring], [trim]) is written on code units.
  The rendering of the status bar item (text, colour, tooltip) is not
  modelled: an [updateStatusBar] call is recorded with the state it was
  given. *)

From Stdlib Require Import ZArith NArith Ascii String DecimalString.
From stdpp Require Import base list strings.

Local Open Scope list_scope.

(** ** JavaScript strings *)

Module JS.
Local Open Scope N_scope.

Abbreviation jsstring := (list N).

(** A literal of the source, as code units. *)
Definition js (s : string) : jsstring :=
  (λ a, N_of_ascii a) <$> list_ascii_of_string s.

Definition tab : N := 9.
Definition newline : N := 10.
Definition colon : N := 58.
Definition slash : N := 47.
Definition dquote : N := 34.

(** [if (s)] on a value of type [string | undefined]. *)
Definition truthy (o : option jsstring) : bool :=
  match o with
  | Some (_ :: _) => true
  | _ => false
  end.

(** [s.split(sep)] for a separator of one code unit. *)
Fixpoint split (sep : N) (s : jsstring) : list jsstring :=
  match s with
  | [] => [[]]
  | c :: s' =>
      if decide (c = sep) then [] :: split sep s'
      else match split sep s' with
           | [] => [[c]]
           | p :: ps => (c :: p) :: ps
           end
  end.

(** [s.startsWith(p)]. *)
Fixpoint startsWith (s p : jsstring) {struct p} : bool :=
  match p, s with
  | [], _ => true
  | a :: p', b :: s' => bool_decide (a = b) && startsWith s' p'
  | _ :: _, [] => false
  end.

(** [s.endsWith(p)]. *)
Definition endsWith (s p : jsstring) : bool :=
  startsWith (reverse s) (reverse p).

(** [s.substring(n)]. *)
Definition substring (n : nat) (s : jsstring) : jsstring := drop n s.

(** WhiteSpace and LineTerminator code units of ECMAScript, the ones
    [trim] strips. *)
Definition isWhiteSpace (c : N) : bool :=
  ((9 <=? c) && (c <=? 13)) || (c =? 32) || (c =? 160) || (c =? 5760)
  || ((8192 <=? c) && (c <=? 8202)) || (c =? 8232) || (c =? 8233)
  || (c =? 8239) || (c =? 8287) || (c =? 12288) || (c =? 65279).

Fixpoint trimStart (s : jsstring) : jsstring :=
  match s with
  | c :: s' => if isWhiteSpace c then trimStart s' else s
  | [] => []
  end.

Definition trimEnd (s : jsstring) : jsstring :=
  reverse (trimStart (reverse s)).

(** [s.trim()]. *)
Definition trim (s : jsstring) : jsstring := trimEnd (trimStart s).

(** [`${n}`] for an integral Number. *)
Definition Number_toString (z : Z) : jsstring :=
  js (NilZero.string_of_int (Z.to_int z)).

(** [hay] has an occurrence of [needle]: what a command line "contains". *)
Fixpoint includes (hay needle : jsstring) : bool :=
  startsWith hay needle ||
  match hay with
  | [] => false
  | _ :: hay' => includes hay' needle
  end.

(** Some proper, non-empty prefix of [needle] ends [hay]: an occurrence
    of [needle] could begin in [hay] and run into what is appended to it. *)
Definition overlaps (hay needle : jsstring) : bool :=
  existsb (λ k, endsWith hay (take k needle)) (seq 1 (length needle - 1)).

End JS.
Import JS.

(** ** The controller's data *)

Module SyncState.
Inductive t := Init | Synced | Syncing | Error.
#[global] Instance eq_dec : EqDecision t.
Proof. solve_decision. Defined.
End SyncState.

Module DeletionMode.
Inductive t := Off | Once | On.
#[global] Instance eq_dec : EqDecision t.
Proof. solve_decision. Defined.
End DeletionMode.

(** What the controller does to its collaborators, in the order it does it. *)
Inductive Event :=
| StatusBar (newState : option SyncState.t)
    (** [updateStatusBar(newState)] *)
| ShowErrorMessage (message : jsstring)
| ShowWarningMessage (message : jsstring)
| ShowInformationMessage (message : jsstring)
| ConsoleLog (line : jsstring)
| Exec (command : jsstring) (cwd : option jsstring)
    (** [exec(command, { cwd }, callback)] of [child_process] *).

#[global] Instance Event_eq_dec : EqDecision Event.
Proof. solve_decision. Defined.

(** The module-level variables, the two injected stores and the trace. *)
Record State := mkState {
  remoteHosts : list jsstring;
  currentHost : option jsstring;
  lastSyncExecutionTime : option Z;
  deletionMode : DeletionMode.t;
  globalState_remoteHosts : list jsstring;
      (** [context.globalState], key ['remoteHosts'] *)
  workspaceState_lastUsedHost : option jsstring;
      (** [context.workspaceState], key ['lastUsedHost'] *)
  trace : list Event
}.

(** The arguments [exec] hands to its callback; [error] holds
    [error.message] and is non-null when the process could not be run or
    exited with a non-zero code. *)
Record ExecResult := mkExecResult {
  error : option jsstring;
  stdout : jsstring;
  stderr : jsstring
}.

(** The answers of the environment during one operation. *)
Record World := mkWorld {
  workspaceFolder : option jsstring;
      (** [vscode.workspace.workspaceFolders?.[0]], as its [uri.fsPath] *)
  joinPath : jsstring -> jsstring -> jsstring;
      (** [vscode.Uri.joinPath(uri, segment).fsPath] *)
  existsSync : jsstring -> bool;
  startTime : Z;   (** [Date.now()] before [exec] *)
  endTime : Z;     (** [Date.now()] in the callback *)
  toLocaleTimeString : Z -> jsstring;
  exec : jsstring -> option jsstring -> ExecResult
}.

(** The value a cycle's promise resolves to. *)
Record SyncResult := mkResult {
  success : bool;
  message : option jsstring
}.

(** ** State monad *)

Definition M (A : Type) : Type := State -> A * State.

#[global] Instance M_ret : MRet M := λ A a s, (a, s).
#[global] Instance M_bind : MBind M :=
  λ A B f m s, let (a, s') := m s in f a s'.

Definition get {A} (f : State -> A) : M A := λ s, (f s, s).
Definition modify (f : State -> State) : M unit := λ s, (tt, f s).
Definition when (b : bool) (m : M unit) : M unit :=
  if b then m else mret tt.

(** [xs.forEach(f)]. *)
Fixpoint forEach {A} (xs : list A) (f : A -> M unit) : M unit :=
  match xs with
  | [] => mret tt
  | x :: xs' => f x;; forEach xs' f
  end.

Definition emit (e : Event) : M unit :=
  modify (λ s, mkState (remoteHosts s) (currentHost s)
                 (lastSyncExecutionTime s) (deletionMode s)
                 (globalState_remoteHosts s) (workspaceState_lastUsedHost s)
                 (trace s ++ [e])).

Definition set_remoteHosts (v : list jsstring) : M unit :=
  modify (λ s, mkState v (currentHost s)
                 (lastSyncExecutionTime s) (deletionMode s)
                 (globalState_remoteHosts s) (workspaceState_lastUsedHost s)
                 (trace s)).

Definition set_currentHost (v : option jsstring) : M unit :=
  modify (λ s, mkState (remoteHosts s) v
                 (lastSyncExecutionTime s) (deletionMode s)
                 (globalState_remoteHosts s) (workspaceState_lastUsedHost s)
                 (trace s)).

Definition set_lastSyncExecutionTime (v : option Z) : M unit :=
  modify (λ s, mkState (remoteHosts s) (currentHost s)
                 v (deletionMode s)
                 (globalState_remoteHosts s) (workspaceState_lastUsedHost s)
                 (trace s)).

Definition set_deletionMode (v : DeletionMode.t) : M unit :=
  modify (λ s, mkState (remoteHosts s) (currentHost s)
                 (lastSyncExecutionTime s) v
                 (globalState_remoteHosts s) (workspaceState_lastUsedHost s)
                 (trace s)).

(** [context.globalState.update('remoteHosts', v)]. *)
Definition globalState_update (v : list jsstring) : M unit :=
  modify (λ s, mkState (remoteHosts s) (currentHost s)
                 (lastSyncExecutionTime s) (deletionMode s)
                 v (workspaceState_lastUsedHost s)
                 (trace s)).

(** [context.workspaceState.update('lastUsedHost', v)]. *)
Definition workspaceState_update (v : option jsstring) : M unit :=
  modify (λ s, mkState (remoteHosts s) (currentHost s)
                 (lastSyncExecutionTime s) (deletionMode s)
                 (globalState_remoteHosts s) v
                 (trace s)).

(** ** The operations of [extension.ts] *)

(** [updateStatusBar(newState?, timestamp?, executionTime?)]: the latency is
    remembered when given; the item is then redrawn for [newState]. *)
Definition updateStatusBar (newState : option SyncState.t)
    (timestamp executionTime : option Z) : M unit :=
  match executionTime with
  | Some e => set_lastSyncExecutionTime (Some e)
  | None => mret tt
  end;;
  emit (StatusBar newState).

(** [activate(context)], on the state the module is loaded with. *)
Definition loaded (storedHosts : list jsstring)
    (lastUsedHost : option jsstring) : State :=
  mkState [] None None DeletionMode.Off storedHosts lastUsedHost [].

Definition activate : M unit :=
  emit (ConsoleLog (js "codemirror: extension activated"));;
  stored ← get globalState_remoteHosts;
  set_remoteHosts stored;;
  lastUsed ← get workspaceState_lastUsedHost;
  set_currentHost lastUsed;;
  updateStatusBar (Some SyncState.Init) None None.

(** [dest_path], line 90. *)
Definition dest_path (currentHost : jsstring) : jsstring :=
  if endsWith currentHost [slash] then currentHost else currentHost ++ [slash].

(** The template literal [command], lines 93 to 97. A backslash before the
    end of a line continues the line, the tabs that indent the next line
    stay in the string. *)
Definition command (deletionMode : DeletionMode.t)
    (fsPath dest_path : jsstring) : jsstring :=
  js "rsync -avzh " ++ [tab; tab; tab] ++
  (if decide (deletionMode ≠ DeletionMode.Off)
   then js "--delete-after " else []) ++
  [tab; tab; tab] ++
  js "--include='**.gitignore' --exclude='/.git' --filter=':- .gitignore' " ++
  [tab; tab; tab] ++ js "--out-format='change: %n' " ++
  [tab; tab; tab] ++ fsPath ++ js " " ++ dest_path.

(** [deletedFiles], line 123. *)
Definition deletedFiles (stdout : jsstring) : list jsstring :=
  filter (λ line, startsWith line (js "delete:")) (split newline stdout).

(** [changedLines], line 129. *)
Definition changedLines (stdout : jsstring) : list jsstring :=
  filter (λ line, startsWith line (js "change:")) (split newline stdout).

(** [fileName], line 133: the line without its first eight code units,
    trimmed. *)
Definition fileName (line : jsstring) : jsstring := trim (substring 8 line).

(** The message a successful cycle resolves to, line 140. *)
Definition syncedMessage (changed : nat) (executionTime : Z) : jsstring :=
  js "Synced " ++ Number_toString (Z.of_nat changed) ++ js " files in "
  ++ Number_toString executionTime ++ js "ms".

(** The callback given to [exec], lines 100 to 142. *)
Definition exec_callback (w : World) (startTime : Z) (r : ExecResult)
    : M SyncResult :=
  let endTime := endTime w in
  let executionTime := (endTime - startTime)%Z in
  match error r with
  | Some error_message =>
      emit (ShowErrorMessage (js "codemirror error: " ++ error_message));;
      updateStatusBar (Some SyncState.Error) None None;;
      mret (mkResult false (Some error_message))
  | None =>
      if truthy (Some (stderr r)) then
        emit (ShowErrorMessage (js "codemirror stderr: " ++ stderr r));;
        updateStatusBar (Some SyncState.Error) None None;;
        mret (mkResult false (Some (stderr r)))
      else
        mode ← get deletionMode;
        when (bool_decide (mode = DeletionMode.Once))
          (set_deletionMode DeletionMode.Off);;
        forEach (deletedFiles (stdout r)) (λ line, emit (ConsoleLog line));;
        let changedLines := changedLines (stdout r) in
        emit (ConsoleLog
                (js "Made " ++ Number_toString (Z.of_nat (length changedLines))
                 ++ js " changes at " ++ toLocaleTimeString w endTime
                 ++ js " in " ++ Number_toString executionTime ++ js "ms"));;
        forEach changedLines (λ line, emit (ConsoleLog (fileName line)));;
        updateStatusBar (Some SyncState.Synced) (Some startTime)
                        (Some executionTime);;
        mret (mkResult true
                (Some (syncedMessage (length changedLines) executionTime)))
  end.

(** [runSyncCommand()], one cycle: the promise's executor up to [exec], then
    the callback on what the process produced. *)
Definition runSyncCommand (w : World) : M SyncResult :=
  host ← get currentHost;
  if negb (truthy host) || bool_decide (trim (default [] host) = []) then
    updateStatusBar (Some SyncState.Init) None None;;
    mret (mkResult false (Some (js "no remote host selected")))
  else
    updateStatusBar (Some SyncState.Syncing) None None;;
    match workspaceFolder w with
    | None =>
        emit (ShowErrorMessage (js "codemirror: no workspace folder found"));;
        updateStatusBar (Some SyncState.Error) None None;;
        mret (mkResult false (Some (js "no workspace folder found")))
    | Some fsPath =>
        updateStatusBar (Some SyncState.Syncing) None None;;
        let gitignorePath := joinPath w fsPath (js ".gitignore") in
        let excludeFromOption :=
          if existsSync w gitignorePath
          then js "--exclude-from=" ++ gitignorePath else [] in
        let dest_path := dest_path (default [] host) in
        mode ← get deletionMode;
        let command := command mode fsPath dest_path in
        let startTime := startTime w in
        emit (Exec command (Some fsPath));;
        exec_callback w startTime (exec w command (Some fsPath))
    end.

(** [setHost(context, host)]. *)
Definition setHost (w : World) (host : jsstring) : M unit :=
  set_currentHost (Some host);;
  result ← runSyncCommand w;
  when (success result) (workspaceState_update (Some host)).

(** [promptDeletionMode()], on the entry picked among Once, On and Off
    (nothing when the pick is dismissed). *)
Definition promptDeletionMode (selection : option DeletionMode.t) : M unit :=
  match selection with
  | Some mode => set_deletionMode mode;; updateStatusBar None None None
  | None => mret tt
  end.

(** [promptRemoveHost(context)], on the entry picked (nothing when the
    pick is dismissed). *)
Definition promptRemoveHost (picked : option jsstring) : M unit :=
  match picked with
  | Some hostToRemove =>
      if truthy (Some hostToRemove) then
        current ← get currentHost;
        when (bool_decide (Some hostToRemove = current))
          (set_currentHost None;;
           updateStatusBar (Some SyncState.Init) None None);;
        hosts ← get remoteHosts;
        set_remoteHosts (filter (λ host, host ≠ hostToRemove) hosts);;
        hosts' ← get remoteHosts;
        globalState_update hosts';;
        emit (ShowInformationMessage (js "Removed host: " ++ hostToRemove))
      else mret tt
  | None => mret tt
  end.

(** The template literal [command] of [validateHost], line 235. *)
Definition ssh_command (hostname path : jsstring) : jsstring :=
  js "ssh " ++ hostname ++ js " -t " ++ [dquote] ++ js "ls " ++ path
  ++ [dquote].

(** [validateHost(host, testReachability)]. *)
Definition validateHost (w : World) (host : jsstring)
    (testReachability : bool) : M bool :=
  let parts := split colon host in
  if bool_decide (length parts ≠ 2%nat)
     || negb (truthy (parts !! 0%nat)) || negb (truthy (parts !! 1%nat))
  then
    emit (ShowErrorMessage
            (js "codemirror: Invalid host format. Please use 'hostname:path'"));;
    mret false
  else if testReachability then
    let hostname := default [] (parts !! 0%nat) in
    let path := default [] (parts !! 1%nat) in
    let command := ssh_command hostname path in
    emit (Exec command None);;
    match error (exec w command None) with
    | Some error_message =>
        emit (ShowErrorMessage
                (js "codemirror: Cannot access remote path: " ++ error_message));;
        mret false
    | None => mret true
    end
  else mret true.

(** [promptAddHost(context)], on the text entered. *)
Definition promptAddHost (w : World) (newHost : option jsstring) : M unit :=
  if truthy newHost then
    let host := default [] newHost in
    isValid ← validateHost w host true;
    if negb isValid then mret tt
    else
      hosts ← get remoteHosts;
      if bool_decide (host ∈ hosts) then
        emit (ShowWarningMessage
                (js "codemirror: Host " ++ host ++ js " already exists, ignoring."))
      else
        set_remoteHosts (hosts ++ [host]);;
        hosts' ← get remoteHosts;
        globalState_update hosts';;
        emit (ShowInformationMessage (js "codemirror: Added new host: " ++ host));;
        setHost w host
  else mret tt.

(** The labels of the fixed entries of the menu of [promptSelectHost]. *)
Definition label_disable : jsstring := js "$(stop) Disable Sync".
Definition label_add : jsstring := js "$(plus) Add New Host".
Definition label_deletion : jsstring := js "$(flame) Deletion Mode".
Definition label_remove : jsstring := js "$(trash) Remove Host".

(** [promptSelectHost(context)], on the label of the entry picked and on
    the answers to the prompt it may open next: the text entered for a new
    host, the deletion mode picked, the host picked for removal. *)
Definition promptSelectHost (w : World) (selection : option jsstring)
    (newHost : option jsstring) (mode : option DeletionMode.t)
    (hostToRemove : option jsstring) : M unit :=
  match selection with
  | Some label =>
      if bool_decide (label = label_add) then promptAddHost w newHost
      else if bool_decide (label = label_deletion) then promptDeletionMode mode
      else if bool_decide (label = label_remove) then
        promptRemoveHost hostToRemove
      else if bool_decide (label = label_disable) then
        set_currentHost None;;
        workspaceState_update None;;
        updateStatusBar (Some SyncState.Init) None None
      else setHost w label
  | None => mret tt
  end.

(** A transfer that was started and whose callback has not run yet: what
    the callback of lines 100 to 142 closes over. *)
Record Pending := mkPending {
  pending_startTime : Z;
  pending_command : jsstring;
  pending_cwd : jsstring
}.

(** The executor of the promise of [runSyncCommand], lines 63 to 100: what
    runs before the call returns. It ends with the promise resolved, or
    with [exec] started and its callback still to come. *)
Definition runSyncCommand_start (w : World) : M (SyncResult + Pending) :=
  host ← get currentHost;
  if negb (truthy host) || bool_decide (trim (default [] host) = []) then
    updateStatusBar (Some SyncState.Init) None None;;
    mret (inl (mkResult false (Some (js "no remote host selected"))))
  else
    updateStatusBar (Some SyncState.Syncing) None None;;
    match workspaceFolder w with
    | None =>
        emit (ShowErrorMessage (js "codemirror: no workspace folder found"));;
        updateStatusBar (Some SyncState.Error) None None;;
        mret (inl (mkResult false (Some (js "no workspace folder found"))))
    | Some fsPath =>
        updateStatusBar (Some SyncState.Syncing) None None;;
        let gitignorePath := joinPath w fsPath (js ".gitignore") in
        let excludeFromOption :=
          if existsSync w gitignorePath
          then js "--exclude-from=" ++ gitignorePath else [] in
        let dest_path := dest_path (default [] host) in
        mode ← get deletionMode;
        let command := command mode fsPath dest_path in
        let startTime := startTime w in
        emit (Exec command (Some fsPath));;
        mret (inr (mkPending startTime command fsPath))
    end.

(** The callback of a pending transfer, run when its process has ended;
    [w] is the environment at that time. *)
Definition complete (w : World) (p : Pending) : M SyncResult :=
  exec_callback w (pending_startTime p)
    (exec w (pending_command p) (Some (pending_cwd p))).

(** The handler given to [watcher.onDidChange], lines 45 to 49, on the
    scheme of the changed resource. The handler drops the promise and
    returns as soon as the executor has run: the callback of a transfer it
    started comes later, after whatever is handled in between. The value
    is that transfer, for the callback to be run on. *)
Definition onDidChange (w : World) (scheme : jsstring) : M (option Pending) :=
  if bool_decide (scheme = js "file") then
    started ← runSyncCommand_start w;
    mret (match started with inr p => Some p | inl _ => None end)
  else mret None.

(** The text [updateStatusBar] leaves in the status bar item, lines 291 to
    313, from the text it finds there; [now] is the clock reading of the
    Syncing case. *)
Definition statusBarText (w : World) (now : Z) (mode : DeletionMode.t)
    (text : jsstring) (newState : option SyncState.t) (timestamp : option Z)
    : jsstring :=
  let text' :=
    match newState with
    | Some SyncState.Init => js "[select host]"
    | Some SyncState.Synced =>
        js "$(check) "
        ++ match timestamp with
           | Some t => if decide (t = 0%Z) then [] else toLocaleTimeString w t
           | None => []
           end
    | Some SyncState.Syncing => js "$(sync) " ++ toLocaleTimeString w now
    | Some SyncState.Error => js "$(error) Error"
    | None => text
    end in
  if decide (mode ≠ DeletionMode.Off) then text' ++ js " $(flame)" else text'.

(** ** Reading a trace *)

(** The states the status bar was given, oldest first. *)
Definition states (tr : list Event) : list SyncState.t :=
  omap (λ e, match e with StatusBar st => st | _ => None end) tr.

(** The command lines handed to [exec], oldest first. *)
Definition execs (tr : list Event) : list jsstring :=
  omap (λ e, match e with Exec c _ => Some c | _ => None end) tr.

(** The lines written with [console.log], oldest first. *)
Definition logged (tr : list Event) : list jsstring :=
  omap (λ e, match e with ConsoleLog l => Some l | _ => None end) tr.

(** The state the status bar shows: the last one it was given. *)
Definition shown (tr : list Event) : option SyncState.t := last (states tr).

(** A sequence of states with immediate repetitions dropped. *)
Fixpoint distinct (l : list SyncState.t) : list SyncState.t :=
  match l with
  | [] => []
  | x :: l' =>
      match l' with
      | y :: _ => if decide (x = y) then distinct l' else x :: distinct l'
      | [] => [x]
      end
  end.

(** [host] is [hostname:path], both parts non-empty, one colon in all. *)
Definition wellFormedHost (host : jsstring) : Prop :=
  ∃ hostname path,
    host = hostname ++ colon :: path ∧
    hostname ≠ [] ∧ path ≠ [] ∧ (colon ∉ hostname) ∧ (colon ∉ path).

(** The command [validateHost] tests the reachability of [host] with. *)
Definition reachability_check (host : jsstring) : jsstring :=
  ssh_command (default [] (split colon host !! 0%nat))
              (default [] (split colon host !! 1%nat)).

(** The remote listing of [host] fails. *)
Definition unreachable (w : World) (host : jsstring) : Prop :=
  error (exec w (reachability_check host) None) ≠ None.

(** [s] after the calls [evs], its variables untouched. *)
Definition record (evs : list Event) (s : State) : State :=
  mkState (remoteHosts s) (currentHost s) (lastSyncExecutionTime s)
    (deletionMode s) (globalState_remoteHosts s)
    (workspaceState_lastUsedHost s) (trace s ++ evs).

(** The state a successful callback leaves: the latency remembered, a
    deletion mode Once used up, the calls [evs] made. *)
Definition settled (executionTime : Z) (evs : list Event) (s : State)
    : State :=
  mkState (remoteHosts s) (currentHost s) (Some executionTime)
    (if bool_decide (deletionMode s = DeletionMode.Once)
     then DeletionMode.Off else deletionMode s)
    (globalState_remoteHosts s) (workspaceState_lastUsedHost s)
    (trace s ++ evs).

(** What a successful callback writes and draws. *)
Definition success_events (w : World) (t : Z) (r : ExecResult)
    : list Event :=
  (ConsoleLog <$> deletedFiles (stdout r))
  ++ [ConsoleLog
        (js "Made "
         ++ Number_toString (Z.of_nat (length (changedLines (stdout r))))
         ++ js " changes at " ++ toLocaleTimeString w (endTime w)
         ++ js " in " ++ Number_toString (endTime w - t) ++ js "ms")]
  ++ ((λ line, ConsoleLog (fileName line)) <$> changedLines (stdout r))
  ++ [StatusBar (Some SyncState.Synced)].

(** The part of [command] written before the folder, with deletion off. *)
Definition options_off : jsstring :=
  js "rsync -avzh " ++ [tab; tab; tab] ++ [tab; tab; tab] ++
  js "--include='**.gitignore' --exclude='/.git' --filter=':- .gitignore' " ++
  [tab; tab; tab] ++ js "--out-format='change: %n' " ++ [tab; tab; tab].

(** The controller as the next session finds it: [activate] on what the
    two stores hold. *)
Definition restart (s : State) : State :=
  snd (activate (loaded (globalState_remoteHosts s)
                        (workspaceState_lastUsedHost s))).

(** The host has a code unit that [trim] keeps. *)
Definition hasText (host : jsstring) : Prop :=
  ∃ c, c ∈ host ∧ isWhiteSpace c = false.

(** [s] with [host] selected, as [setHost] makes it before its cycle. *)
Definition selected (host : jsstring) (s : State) : State :=
  snd (set_currentHost (Some host) s).

(** [s] after a new host was validated, appended and stored, as
    [promptAddHost] makes it before it calls [setHost]. *)
Definition registered (host : jsstring) (s : State) : State :=
  mkState (remoteHosts s ++ [host]) (currentHost s)
    (lastSyncExecutionTime s) (deletionMode s)
    (remoteHosts s ++ [host]) (workspaceState_lastUsedHost s)
    (trace s
     ++ [Exec (reachability_check host) None;
         ShowInformationMessage (js "codemirror: Added new host: " ++ host)]).

(** ** Sample data *)

Module Sample.

Definition box : jsstring := js "box:/srv/app".

(** The output [change: a.txt], [change: b.txt], [delete: c.txt], one per
    line. *)
Definition output : jsstring :=
  js "change: a.txt" ++ [newline] ++ js "change: b.txt" ++ [newline]
  ++ js "delete: c.txt" ++ [newline].

Definition ok : ExecResult := mkExecResult None output [].
Definition failed : ExecResult :=
  mkExecResult (Some (js "Command failed: rsync")) output [].
Definition complained : ExecResult :=
  mkExecResult None output (js "rsync: warning").

(** A workspace at [/home/u/app] where every process ends as [r] does. *)
Definition world (r : ExecResult) : World :=
  mkWorld (Some (js "/home/u/app")) (λ dir name, dir ++ slash :: name)
    (λ _, true) 1000 1042 (λ _, js "12:00:00") (λ _ _, r).

(** A process that cannot reach the remote. *)
Definition refused : ExecResult :=
  mkExecResult (Some (js "Command failed: ssh")) [] [].

(** As [world], the folder being [/home/u/a --delete-after b]. *)
Definition spaced (r : ExecResult) : World :=
  mkWorld (Some (js "/home/u/a --delete-after b"))
    (λ dir name, dir ++ slash :: name)
    (λ _, true) 1000 1042 (λ _, js "12:00:00") (λ _ _, r).

(** As [world], with no folder open. *)
Definition bare (r : ExecResult) : World :=
  mkWorld None (λ dir name, dir ++ slash :: name)
    (λ _, false) 1000 1042 (λ _, js "12:00:00") (λ _ _, r).

(** The controller after [activate], [box] registered and last used. *)
Definition started (mode : DeletionMode.t) : State :=
  mkState [box] (Some box) None mode [box] (Some box)
    [ConsoleLog (js "codemirror: extension activated");
     StatusBar (Some SyncState.Init)].

End Sample.

(** Literals stay folded while a proof simplifies around them. *)
Opaque js.

(** ** Strings *)

Section Strings.

Lemma split_nonempty sep s : split sep s ≠ [].
Proof.
  destruct s as [|c s]; simpl; [done|].
  case_decide; [done|]. by destruct (split sep s).
Qed.

Lemma split_one sep s a :
  split sep s = [a] ↔ s = a ∧ (sep ∉ a).
Proof.
  revert a. induction s as [|c s IH]; intros a; simpl.
  - split.
    + intros [= <-]. split; [done|]. apply not_elem_of_nil.
    + by intros [<- _].
  - case_decide as Hc.
    + subst c. split.
      * intros [= _ Hs]. by destruct (split_nonempty sep s).
      * intros [<- Hn]. destruct Hn. left.
    + destruct (split sep s) as [|p ps] eqn:E; [by apply split_nonempty in E|].
      split.
      * intros [= <- ->]. destruct (proj1 (IH p) eq_refl) as [-> Hp].
        split; [done|]. rewrite not_elem_of_cons. done.
      * intros [<- Hn]. apply not_elem_of_cons in Hn as [_ Hn].
        by injection (proj2 (IH s) (conj eq_refl Hn)) as -> ->.
Qed.

Lemma split_two sep s a b :
  split sep s = [a; b] ↔ s = a ++ sep :: b ∧ (sep ∉ a) ∧ (sep ∉ b).
Proof.
  revert a. induction s as [|c s IH]; intros a; simpl.
  - split; [done|]. intros [H _]. by destruct a.
  - case_decide as Hc.
    + subst c. split.
      * intros [= <- Hs]. apply split_one in Hs as [-> Hb].
        split_and!; [done| apply not_elem_of_nil | done].
      * intros (Hs & Ha & Hb). destruct a as [|x a].
        -- simpl in Hs. injection Hs as ->. f_equal. apply split_one. done.
        -- simpl in Hs. injection Hs as <- _. destruct Ha. left.
    + destruct (split sep s) as [|p ps] eqn:E; [by apply split_nonempty in E|].
      split.
      * intros [= <- ->]. destruct (proj1 (IH p) eq_refl) as (-> & Hp & Hb).
        split_and!; [done| | done]. rewrite not_elem_of_cons. done.
      * intros (Hs & Ha & Hb). destruct a as [|x a].
        -- simpl in Hs. injection Hs as -> _. done.
        -- simpl in Hs. injection Hs as <- ->.
           apply not_elem_of_cons in Ha as [_ Ha].
           by injection (proj2 (IH a) (conj eq_refl (conj Ha Hb))) as -> ->.
Qed.

Lemma trimStart_whitespace s :
  Forall (λ c, isWhiteSpace c = true) s → trimStart s = [].
Proof. induction 1 as [|c s Hc _ IH]; simpl; [done|]. by rewrite Hc. Qed.

Lemma trim_whitespace s :
  Forall (λ c, isWhiteSpace c = true) s → trim s = [].
Proof. intros H. unfold trim. by rewrite trimStart_whitespace. Qed.

Lemma startsWith_spec s p : startsWith s p = true ↔ ∃ q, s = p ++ q.
Proof.
  revert s. induction p as [|a p IH]; intros s; simpl.
  - split; [by exists s | done].
  - destruct s as [|b s].
    + split; [done | by intros [q ?]].
    + rewrite andb_true_iff, bool_decide_eq_true, IH. split.
      * intros [-> [q ->]]. by exists q.
      * intros [q [= -> ->]]. split; [done | by exists q].
Qed.

Lemma endsWith_spec s p : endsWith s p = true ↔ ∃ q, s = q ++ p.
Proof.
  unfold endsWith. rewrite startsWith_spec. split.
  - intros [q Hq]. exists (reverse q).
    rewrite <- (reverse_involutive s), Hq, reverse_app.
    by rewrite reverse_involutive.
  - intros [q ->]. exists (reverse q). by rewrite reverse_app.
Qed.

Lemma includes_spec hay needle :
  includes hay needle = true ↔ ∃ pre post, hay = pre ++ needle ++ post.
Proof.
  induction hay as [|c hay IH]; simpl.
  - rewrite orb_false_r, startsWith_spec. split.
    + intros [q ->]. by exists [], q.
    + intros (pre & post & H). symmetry in H.
      apply app_eq_nil in H as [_ H]. apply app_eq_nil in H as [-> ->].
      by exists [].
  - rewrite orb_true_iff, startsWith_spec, IH. split.
    + intros [[q ->] | (pre & post & ->)].
      * by exists [], q.
      * by exists (c :: pre), post.
    + intros ([|x pre] & post & H).
      * left. by exists post.
      * right. injection H as -> ->. by exists pre, post.
Qed.

Lemma includes_intro pre needle post :
  includes (pre ++ needle ++ post) needle = true.
Proof. apply includes_spec. by exists pre, post. Qed.

Lemma includes_app_l a b needle :
  includes a needle = true → includes (a ++ b) needle = true.
Proof.
  rewrite !includes_spec. intros (pre & post & ->).
  exists pre, (post ++ b). by rewrite <- !app_assoc.
Qed.

Lemma includes_app_r a b needle :
  includes b needle = true → includes (a ++ b) needle = true.
Proof.
  rewrite !includes_spec. intros (pre & post & ->).
  exists (a ++ pre), post. by rewrite <- !app_assoc.
Qed.

Lemma overlaps_false hay needle k k' :
  overlaps hay needle = false → needle = k ++ k' → k ≠ [] → k' ≠ [] →
  endsWith hay k = false.
Proof.
  unfold overlaps. intros H -> Hk Hk'.
  destruct (endsWith hay k) eqn:E; [|done].
  assert (existsb (λ n, endsWith hay (take n (k ++ k')))
            (seq 1 (length (k ++ k') - 1)) = true) as Hex; [|congruence].
  apply existsb_exists. exists (length k). split.
  - apply in_seq. rewrite length_app.
    destruct k, k'; simpl in *; try done; lia.
  - by rewrite take_app_length.
Qed.

(** An occurrence in [a ++ b] that is not in [a] and does not straddle the
    seam is in [b]. *)
Lemma includes_app_inv a b needle :
  includes a needle = false → overlaps a needle = false →
  includes (a ++ b) needle = true → includes b needle = true.
Proof.
  intros Ha Ho H. apply includes_spec in H as (pre & post & H).
  apply app_eq_inv in H as [(k & Hk & H) | (k & -> & ->)].
  - apply app_eq_inv in H as [(k' & Hn & Hb) | (k' & -> & ->)].
    + destruct k as [|x k].
      * simpl in Hn. subst. apply includes_spec. by exists [], post.
      * destruct k' as [|y k'].
        -- rewrite app_nil_r in Hn. subst.
           rewrite <- (app_nil_r (x :: k)) in Ha at 1.
           by rewrite includes_intro in Ha.
        -- assert (endsWith a (x :: k) = false) as E
             by (by eapply overlaps_false).
           assert (endsWith a (x :: k) = true) as E'
             by (apply endsWith_spec; by exists pre).
           congruence.
    + subst a. by rewrite includes_intro in Ha.
  - apply includes_spec. by exists k, post.
Qed.

End Strings.

(** ** Running the monad *)

Create HintDb controller.
#[global] Hint Unfold get modify when emit set_remoteHosts set_currentHost
  set_lastSyncExecutionTime set_deletionMode globalState_update
  workspaceState_update updateStatusBar : controller.

Ltac not_among :=
  rewrite ?not_elem_of_cons; repeat split;
  first [discriminate | apply not_elem_of_nil].

Ltac run :=
  autounfold with controller in *;
  unfold mbind, mret, M_bind, M_ret in *; simpl in *.

(** ** No host selected *)

(** C3: a cycle started with no current host, or with one that is empty or
    made of whitespace only, gives the status bar the state Init, resolves
    to a failure with the no-host message and hands nothing to [exec]; the
    variables of the controller are left as they were. *)
Theorem runSyncCommand_no_host (w : World) (s : State)
  (H : currentHost s = None ∨
       ∃ h, currentHost s = Some h ∧ Forall (λ c, isWhiteSpace c = true) h) :
  fst (runSyncCommand w s)
    = mkResult false (Some (js "no remote host selected")) ∧
  trace (snd (runSyncCommand w s))
    = trace s ++ [StatusBar (Some SyncState.Init)] ∧
  shown (trace (snd (runSyncCommand w s))) = Some SyncState.Init ∧
  execs (trace (snd (runSyncCommand w s))) = execs (trace s) ∧
  deletionMode (snd (runSyncCommand w s)) = deletionMode s ∧
  currentHost (snd (runSyncCommand w s)) = currentHost s.
Proof.
  assert (E : negb (truthy (currentHost s))
              || bool_decide (trim (default [] (currentHost s)) = []) = true).
  { destruct H as [-> | (h & -> & Hws)]; [done|].
    apply orb_true_iff. right. apply bool_decide_eq_true.
    by apply trim_whitespace. }
  unfold runSyncCommand. run. rewrite E. simpl.
  split_and!; try done.
  - unfold shown, states. rewrite omap_app. simpl. by rewrite last_snoc.
  - unfold execs. rewrite omap_app. simpl. by rewrite app_nil_r.
Qed.

Lemma runSyncCommand_no_host_witness :
  let s := mkState [] (Some (js "  ")) None DeletionMode.Once [] None [] in
  let w := mkWorld (Some (js "/w")) (λ a b, a ++ b) (λ _, false) 0 1
             (λ _, []) (λ _ _, mkExecResult None [] []) in
  fst (runSyncCommand w s)
    = mkResult false (Some (js "no remote host selected")) ∧
  execs (trace (snd (runSyncCommand w s))) = [].
Proof.
  intros s w.
  assert (H : currentHost s = None ∨
       ∃ h, currentHost s = Some h ∧ Forall (λ c, isWhiteSpace c = true) h).
  { right. exists (js "  "). split; [reflexivity|].
    vm_compute. repeat constructor. }
  destruct (runSyncCommand_no_host w s H) as (H1 & _ & _ & H4 & _).
  split; [exact H1 | exact H4].
Defined.

(** ** Host validation *)

Lemma validateHost_format (host : jsstring) :
  bool_decide (length (split colon host) ≠ 2%nat)
  || negb (truthy (split colon host !! 0%nat))
  || negb (truthy (split colon host !! 1%nat)) = false
  ↔ wellFormedHost host.
Proof.
  unfold wellFormedHost. split.
  - intros H. apply orb_false_iff in H as [H H1].
    apply orb_false_iff in H as [Hl H0].
    apply bool_decide_eq_false in Hl. apply dec_stable in Hl.
    destruct (split colon host) as [|a [|b [|? ?]]] eqn:E; try done.
    simpl in H0, H1. apply split_two in E as (-> & Ha & Hb).
    exists a, b. split_and!; try done.
    + by destruct a.
    + by destruct b.
  - intros (a & b & Hs & Ha & Hb & Hna & Hnb).
    rewrite (proj2 (split_two colon host a b)) by done. simpl.
    by destruct a, b.
Qed.

(** C6: without the reachability test, [validateHost] answers true exactly
    for the strings made of two non-empty parts around their only colon,
    and it hands nothing to [exec]. *)
Theorem validateHost_format_only (w : World) (s : State) (host : jsstring) :
  (fst (validateHost w host false s) = true ↔ wellFormedHost host) ∧
  execs (trace (snd (validateHost w host false s))) = execs (trace s).
Proof.
  unfold validateHost.
  destruct (bool_decide _ || _ || _) eqn:E; run.
  - split.
    + split; [done|]. intros Hw. apply validateHost_format in Hw. congruence.
    + unfold execs. rewrite omap_app. simpl. by rewrite app_nil_r.
  - split; [|done]. split; [|done]. intros _. by apply validateHost_format.
Qed.

(** ** One cycle, step by step *)

Lemma forEach_emit {A} (g : A → Event) (xs : list A) (s : State) :
  forEach xs (λ x, emit (g x)) s = (tt, record (g <$> xs) s).
Proof.
  revert s. induction xs as [|x xs IH]; intros s; simpl.
  - unfold record. rewrite app_nil_r. by destruct s.
  - run. rewrite IH. unfold record. simpl. by rewrite <- app_assoc.
Qed.

Lemma record_record evs evs' s :
  record evs' (record evs s) = record (evs ++ evs') s.
Proof. unfold record. simpl. by rewrite <- app_assoc. Qed.

Lemma settled_record t evs evs' s :
  settled t evs' (record evs s) = settled t (evs ++ evs') s.
Proof. unfold settled, record. simpl. by rewrite <- app_assoc. Qed.

Section Cycle.

Variable w : World.

(** The callback when [exec] reports an error. *)
Lemma exec_callback_error s t r m :
  error r = Some m →
  exec_callback w t r s
  = (mkResult false (Some m),
     record [ShowErrorMessage (js "codemirror error: " ++ m);
             StatusBar (Some SyncState.Error)] s).
Proof.
  intros E. unfold exec_callback. rewrite E. run.
  unfold record. by rewrite <- app_assoc.
Qed.

(** The callback when the process wrote to its error stream. *)
Lemma exec_callback_stderr s t r :
  error r = None → stderr r ≠ [] →
  exec_callback w t r s
  = (mkResult false (Some (stderr r)),
     record [ShowErrorMessage (js "codemirror stderr: " ++ stderr r);
             StatusBar (Some SyncState.Error)] s).
Proof.
  intros E Hs. unfold exec_callback. rewrite E.
  destruct (stderr r) as [|c e] eqn:Ee; [done|]. run.
  unfold record. by rewrite <- app_assoc.
Qed.

(** The callback when the process ended well and silently. *)
Lemma exec_callback_ok s t r :
  error r = None → stderr r = [] →
  exec_callback w t r s
  = (mkResult true
       (Some (syncedMessage (length (changedLines (stdout r)))
                            (endTime w - t))),
     settled (endTime w - t) (success_events w t r) s).
Proof.
  intros E Hs. unfold exec_callback. rewrite E, Hs. simpl.
  unfold mbind, mret, M_bind, M_ret, get, when, updateStatusBar,
    set_lastSyncExecutionTime, set_deletionMode, modify.
  destruct s as [rh ch ls dm gs ws tr]. simpl.
  unfold settled, success_events. simpl.
  destruct (bool_decide (dm = DeletionMode.Once)); simpl;
    rewrite ?forEach_emit; simpl; unfold emit, modify; simpl;
    rewrite ?forEach_emit; simpl; by rewrite <- !app_assoc.
Qed.

(** The executor of the promise, when a host is selected and a folder is
    open: two redraws, then [exec] on the command built from the deletion
    mode, the folder and the host. *)
Lemma runSyncCommand_exec s h p :
  currentHost s = Some h → trim h ≠ [] → workspaceFolder w = Some p →
  runSyncCommand w s
  = exec_callback w (startTime w)
      (exec w (command (deletionMode s) p (dest_path h)) (Some p))
      (record [StatusBar (Some SyncState.Syncing);
               StatusBar (Some SyncState.Syncing);
               Exec (command (deletionMode s) p (dest_path h)) (Some p)] s).
Proof.
  intros Hh Ht Hp. unfold runSyncCommand.
  unfold mbind at 1, M_bind at 1, get at 1. rewrite Hh.
  assert (truthy (Some h) = true) as -> by (by destruct h).
  simpl. rewrite bool_decide_eq_false_2 by done. rewrite Hp.
  run. unfold record. simpl. by rewrite <- !app_assoc.
Qed.

(** Without a folder the cycle ends in Error after one redraw. *)
Lemma runSyncCommand_no_workspace s h :
  currentHost s = Some h → trim h ≠ [] → workspaceFolder w = None →
  runSyncCommand w s
  = (mkResult false (Some (js "no workspace folder found")),
     record [StatusBar (Some SyncState.Syncing);
             ShowErrorMessage (js "codemirror: no workspace folder found");
             StatusBar (Some SyncState.Error)] s).
Proof.
  intros Hh Ht Hp. unfold runSyncCommand.
  unfold mbind at 1, M_bind at 1, get at 1. rewrite Hh.
  assert (truthy (Some h) = true) as -> by (by destruct h).
  simpl. rewrite bool_decide_eq_false_2 by done. rewrite Hp.
  run. unfold record. simpl. by rewrite <- !app_assoc.
Qed.

(** Without a usable host the cycle ends in Init at once. *)
Lemma runSyncCommand_init s :
  negb (truthy (currentHost s))
  || bool_decide (trim (default [] (currentHost s)) = []) = true →
  runSyncCommand w s
  = (mkResult false (Some (js "no remote host selected")),
     record [StatusBar (Some SyncState.Init)] s).
Proof.
  intros E. unfold runSyncCommand.
  unfold mbind at 1, M_bind at 1, get at 1. rewrite E. reflexivity.
Qed.

(** The three ways a cycle that reached [exec] can end. *)
Lemma runSyncCommand_cases s h p :
  currentHost s = Some h → trim h ≠ [] → workspaceFolder w = Some p →
  let c := command (deletionMode s) p (dest_path h) in
  let r := exec w c (Some p) in
  let began := [StatusBar (Some SyncState.Syncing);
                StatusBar (Some SyncState.Syncing); Exec c (Some p)] in
  (∃ m, error r = Some m ∧
     runSyncCommand w s
     = (mkResult false (Some m),
        record (began ++ [ShowErrorMessage (js "codemirror error: " ++ m);
                          StatusBar (Some SyncState.Error)]) s)) ∨
  (error r = None ∧ stderr r ≠ [] ∧
     runSyncCommand w s
     = (mkResult false (Some (stderr r)),
        record (began ++
                [ShowErrorMessage (js "codemirror stderr: " ++ stderr r);
                 StatusBar (Some SyncState.Error)]) s)) ∨
  (error r = None ∧ stderr r = [] ∧
     runSyncCommand w s
     = (mkResult true
          (Some (syncedMessage (length (changedLines (stdout r)))
                               (endTime w - startTime w))),
        settled (endTime w - startTime w)
          (began ++ success_events w (startTime w) r) s)).
Proof.
  intros Hh Ht Hp c r began. rewrite (runSyncCommand_exec s h p) by done.
  fold c r began. destruct (error r) as [m|] eqn:E.
  - left. exists m. split; [done|].
    rewrite (exec_callback_error _ _ _ m) by done.
    by rewrite record_record.
  - right. destruct (decide (stderr r = [])) as [Hs|Hs].
    + right. split_and!; try done.
      rewrite exec_callback_ok by done. by rewrite settled_record.
    + left. split_and!; try done.
      rewrite exec_callback_stderr by done. by rewrite record_record.
Qed.

End Cycle.

(** ** Reading the trace of a cycle *)

Lemma states_app tr tr' : states (tr ++ tr') = states tr ++ states tr'.
Proof. apply omap_app. Qed.

Lemma execs_app tr tr' : execs (tr ++ tr') = execs tr ++ execs tr'.
Proof. apply omap_app. Qed.

Lemma logged_app tr tr' : logged (tr ++ tr') = logged tr ++ logged tr'.
Proof. apply omap_app. Qed.

Lemma states_logs {A} (f : A → jsstring) xs :
  states ((λ x, ConsoleLog (f x)) <$> xs) = [].
Proof. by induction xs. Qed.

Lemma execs_logs {A} (f : A → jsstring) xs :
  execs ((λ x, ConsoleLog (f x)) <$> xs) = [].
Proof. by induction xs. Qed.

Lemma logged_logs {A} (f : A → jsstring) xs :
  logged ((λ x, ConsoleLog (f x)) <$> xs) = f <$> xs.
Proof. induction xs as [|x xs IH]; simpl; [done|]. by f_equal. Qed.

Lemma states_success_events w t r :
  states (success_events w t r) = [SyncState.Synced].
Proof.
  unfold success_events. rewrite !states_app.
  rewrite (states_logs id), (states_logs fileName). done.
Qed.

Lemma execs_success_events w t r : execs (success_events w t r) = [].
Proof.
  unfold success_events. rewrite !execs_app.
  rewrite (execs_logs id), (execs_logs fileName). done.
Qed.

Lemma shown_snoc tr st : shown (tr ++ [StatusBar (Some st)]) = Some st.
Proof. unfold shown. rewrite states_app. simpl. apply last_snoc. Qed.

Lemma shown_app tr tr' st :
  last (states tr') = Some st → shown (tr ++ tr') = Some st.
Proof.
  intros H. unfold shown. rewrite states_app, last_app. by rewrite H.
Qed.

(** ** Deletion mode Once *)

(** C1: in a cycle run with deletion mode Once that reaches [exec], a
    process that ends without error and without error-stream output leaves
    the mode at Off when the cycle resolves, with success; a process that
    fails, by its exit or by writing to its error stream, leaves the mode at
    Once. *)
Theorem once_used_up_only_by_success (w : World) (s : State)
    (h p : jsstring)
  (Hmode : deletionMode s = DeletionMode.Once)
  (Hhost : currentHost s = Some h) (Htrim : trim h ≠ [])
  (Hfolder : workspaceFolder w = Some p) :
  let r := exec w (command DeletionMode.Once p (dest_path h)) (Some p) in
  let out := runSyncCommand w s in
  (error r = None → stderr r = [] →
     success (fst out) = true ∧ deletionMode (snd out) = DeletionMode.Off) ∧
  (error r ≠ None ∨ stderr r ≠ [] →
     success (fst out) = false ∧ deletionMode (snd out) = DeletionMode.Once).
Proof.
  intros r out. subst out r.
  destruct (runSyncCommand_cases w s h p Hhost Htrim Hfolder)
    as [(m & E & ->) | [(E & Hs & ->) | (E & Hs & ->)]];
    rewrite Hmode in *; simpl.
  - split; [by rewrite E|]. done.
  - split; [done|]. done.
  - rewrite Hmode. split; [done|]. intros [?|?]; done.
Qed.

Lemma once_used_up_only_by_success_witness :
  deletionMode
    (snd (runSyncCommand (Sample.world Sample.ok)
            (Sample.started DeletionMode.Once))) = DeletionMode.Off ∧
  deletionMode
    (snd (runSyncCommand (Sample.world Sample.failed)
            (Sample.started DeletionMode.Once))) = DeletionMode.Once.
Proof.
  split.
  - refine (proj2 (proj1 (once_used_up_only_by_success
      (Sample.world Sample.ok) (Sample.started DeletionMode.Once)
      Sample.box (js "/home/u/app") eq_refl eq_refl _ eq_refl)
      eq_refl eq_refl)).
    vm_compute. discriminate.
  - refine (proj2 (proj2 (once_used_up_only_by_success
      (Sample.world Sample.failed) (Sample.started DeletionMode.Once)
      Sample.box (js "/home/u/app") eq_refl eq_refl _ eq_refl) _)).
    + vm_compute. discriminate.
    + left. discriminate.
Defined.

(** ** Failed transfers *)

(** C2: in a cycle that reaches [exec], a process that [exec] reports as
    failed or that wrote anything to its error stream, whatever it wrote to
    its standard output, makes the cycle resolve to a failure carrying the
    error's message (or else the error-stream text); the status bar ends in
    Error and is never given Synced during the cycle. *)
Theorem failed_transfer_ends_in_error (w : World) (s : State)
    (h p : jsstring)
  (Hhost : currentHost s = Some h) (Htrim : trim h ≠ [])
  (Hfolder : workspaceFolder w = Some p)
  (Hfail :
     let r := exec w (command (deletionMode s) p (dest_path h)) (Some p) in
     error r ≠ None ∨ stderr r ≠ []) :
  let r := exec w (command (deletionMode s) p (dest_path h)) (Some p) in
  let out := runSyncCommand w s in
  fst out = mkResult false (Some (default (stderr r) (error r))) ∧
  shown (trace (snd out)) = Some SyncState.Error ∧
  ∃ evs, trace (snd out) = trace s ++ evs ∧
         states evs = [SyncState.Syncing; SyncState.Syncing; SyncState.Error] ∧
         SyncState.Synced ∉ states evs.
Proof.
  intros r out. subst out r. simpl in Hfail.
  destruct (runSyncCommand_cases w s h p Hhost Htrim Hfolder)
    as [(m & E & ->) | [(E & Hs & ->) | (E & Hs & ->)]]; simpl.
  - rewrite E. simpl. split; [done|]. split.
    + by apply shown_app.
    + eexists. split; [done|]. split; [done|]. simpl. not_among.
  - rewrite E. simpl. split; [done|]. split.
    + by apply shown_app.
    + eexists. split; [done|]. split; [done|]. simpl. not_among.
  - destruct Hfail as [?|?]; done.
Qed.

Lemma failed_transfer_ends_in_error_witness :
  fst (runSyncCommand (Sample.world Sample.complained)
         (Sample.started DeletionMode.Off))
  = mkResult false (Some (js "rsync: warning")) ∧
  shown (trace (snd (runSyncCommand (Sample.world Sample.complained)
                       (Sample.started DeletionMode.Off))))
  = Some SyncState.Error.
Proof.
  assert (Ht : trim Sample.box ≠ []) by (vm_compute; discriminate).
  assert (Hf :
    let r := exec (Sample.world Sample.complained)
               (command (deletionMode (Sample.started DeletionMode.Off))
                  (js "/home/u/app") (dest_path Sample.box))
               (Some (js "/home/u/app")) in
    error r ≠ None ∨ stderr r ≠ []).
  { right. vm_compute. discriminate. }
  destruct (failed_transfer_ends_in_error (Sample.world Sample.complained)
              (Sample.started DeletionMode.Off) Sample.box (js "/home/u/app")
              eq_refl Ht eq_refl Hf) as (H1 & H2 & _).
  split; [exact H1 | exact H2].
Defined.

(** ** Parsing the output *)

(** C5: when the process ends well with the three-line output of
    [Sample.output], two lines count as changes, the names written to the
    console are [a.txt] and [b.txt], without the prefix and trimmed, and the
    cycle resolves to success with the message "Synced 2 files in Dms", D
    being the time between the two clock readings. *)
Theorem sample_output_parsed (w : World) (s : State) (h p : jsstring)
  (Hhost : currentHost s = Some h) (Htrim : trim h ≠ [])
  (Hfolder : workspaceFolder w = Some p)
  (Hok : exec w (command (deletionMode s) p (dest_path h)) (Some p)
         = mkExecResult None Sample.output []) :
  let out := runSyncCommand w s in
  let D := (endTime w - startTime w)%Z in
  length (changedLines Sample.output) = 2%nat ∧
  fileName <$> changedLines Sample.output = [js "a.txt"; js "b.txt"] ∧
  fst out
  = mkResult true
      (Some (js "Synced " ++ js "2" ++ js " files in " ++ Number_toString D
             ++ js "ms")) ∧
  logged (trace (snd out))
  = logged (trace s)
    ++ [js "delete: c.txt";
        js "Made " ++ js "2" ++ js " changes at "
        ++ toLocaleTimeString w (endTime w) ++ js " in " ++ Number_toString D
        ++ js "ms";
        js "a.txt"; js "b.txt"] ∧
  shown (trace (snd out)) = Some SyncState.Synced.
Proof.
  intros out D. subst out D.
  assert (Hc : changedLines Sample.output
               = [js "change: a.txt"; js "change: b.txt"])
    by (vm_compute; reflexivity).
  assert (Hd : deletedFiles Sample.output = [js "delete: c.txt"])
    by (vm_compute; reflexivity).
  assert (Hn : fileName <$> [js "change: a.txt"; js "change: b.txt"]
               = [js "a.txt"; js "b.txt"]) by (vm_compute; reflexivity).
  assert (H2 : Number_toString (Z.of_nat 2) = js "2")
    by (vm_compute; reflexivity).
  rewrite Hc. split; [done|]. split; [exact Hn|].
  destruct (runSyncCommand_cases w s h p Hhost Htrim Hfolder)
    as [(m & E & _) | [(_ & Hs & _) | (_ & _ & ->)]];
    rewrite Hok in *; simpl in *; try done.
  unfold success_events. simpl. rewrite Hc, Hd. simpl.
  unfold syncedMessage. rewrite H2. split; [done|]. split.
  - assert (Ha : fileName (js "change: a.txt") = js "a.txt")
      by (vm_compute; reflexivity).
    assert (Hb : fileName (js "change: b.txt") = js "b.txt")
      by (vm_compute; reflexivity).
    rewrite !logged_app. simpl. by rewrite Ha, Hb.
  - by apply shown_app.
Qed.

Lemma sample_output_parsed_witness :
  fst (runSyncCommand (Sample.world Sample.ok)
         (Sample.started DeletionMode.On))
  = mkResult true (Some (js "Synced 2 files in 42ms")).
Proof.
  assert (Ht : trim Sample.box ≠ []) by (vm_compute; discriminate).
  destruct (sample_output_parsed (Sample.world Sample.ok)
              (Sample.started DeletionMode.On) Sample.box (js "/home/u/app")
              eq_refl Ht eq_refl eq_refl) as (_ & _ & H & _).
  rewrite H. vm_compute. reflexivity.
Defined.

(** ** The transfer command *)

Lemma command_off p d :
  command DeletionMode.Off p d = options_off ++ (p ++ js " " ++ d).
Proof. unfold command, options_off. simpl. by rewrite <- !app_assoc. Qed.

(** The cycle that reaches [exec] hands it one command, the one built from
    the deletion mode, the folder and the host. *)
Lemma runSyncCommand_execs w s h p :
  currentHost s = Some h → trim h ≠ [] → workspaceFolder w = Some p →
  execs (trace (snd (runSyncCommand w s)))
  = execs (trace s) ++ [command (deletionMode s) p (dest_path h)].
Proof.
  intros Hhost Htrim Hfolder.
  destruct (runSyncCommand_cases w s h p Hhost Htrim Hfolder)
    as [(m & E & ->) | [(E & Hs & ->) | (E & Hs & ->)]]; simpl;
    rewrite execs_app; try done.
  simpl. by rewrite execs_success_events.
Qed.

Lemma dest_path_spec h :
  ((∃ q, h = q ++ [slash]) → dest_path h = h) ∧
  ((¬ ∃ q, h = q ++ [slash]) → dest_path h = h ++ [slash]).
Proof.
  unfold dest_path. destruct (endsWith h [slash]) eqn:E.
  - split; [done|]. intros []. by apply endsWith_spec.
  - split; [|done]. intros H. apply endsWith_spec in H. congruence.
Qed.

(** C10: the cycle that reaches [exec] ends its command with the folder, a
    space and the destination; the destination is the current host itself
    when that ends with a slash, and the current host followed by one slash
    when it does not. *)
Theorem destination_ends_with_one_slash (w : World) (s : State)
    (h p : jsstring)
  (Hhost : currentHost s = Some h) (Htrim : trim h ≠ [])
  (Hfolder : workspaceFolder w = Some p) :
  ∃ c d,
    execs (trace (snd (runSyncCommand w s))) = execs (trace s) ++ [c] ∧
    endsWith c (p ++ js " " ++ d) = true ∧
    ((∃ q, h = q ++ [slash]) → d = h) ∧
    ((¬ ∃ q, h = q ++ [slash]) → d = h ++ [slash]).
Proof.
  exists (command (deletionMode s) p (dest_path h)), (dest_path h).
  split; [by apply runSyncCommand_execs|]. split; [|apply dest_path_spec].
  apply endsWith_spec. unfold command. eexists.
  rewrite !app_assoc. reflexivity.
Qed.

Lemma destination_ends_with_one_slash_witness :
  ∃ c,
    execs (trace (snd (runSyncCommand (Sample.world Sample.ok)
                         (Sample.started DeletionMode.Off)))) = [c] ∧
    endsWith c (js "/home/u/app box:/srv/app/") = true.
Proof.
  assert (Ht : trim Sample.box ≠ []) by (vm_compute; discriminate).
  destruct (destination_ends_with_one_slash (Sample.world Sample.ok)
              (Sample.started DeletionMode.Off) Sample.box (js "/home/u/app")
              eq_refl Ht eq_refl) as (c & d & Hc & He & _ & Hd).
  exists c. split; [exact Hc|].
  assert (E : js "/home/u/app box:/srv/app/"
              = js "/home/u/app" ++ js " " ++ Sample.box ++ [slash])
    by (vm_compute; reflexivity).
  rewrite E, <- Hd; [exact He|].
  intros [q Hq]. apply (f_equal (@last N)) in Hq.
  rewrite last_snoc in Hq. vm_compute in Hq. discriminate.
Defined.

(** The fixed rules of the command, whatever the mode, folder and host. *)
Lemma command_rules m p d :
  includes (command m p d) (js "--include='**.gitignore'") = true ∧
  includes (command m p d) (js "--exclude='/.git'") = true ∧
  includes (command m p d) (js "--filter=':- .gitignore'") = true ∧
  includes (command m p d) (js "--out-format='change: %n'") = true.
Proof.
  unfold command. split_and!.
  - do 4 apply includes_app_r. apply includes_app_l.
    vm_compute. reflexivity.
  - do 4 apply includes_app_r. apply includes_app_l.
    vm_compute. reflexivity.
  - do 4 apply includes_app_r. apply includes_app_l.
    vm_compute. reflexivity.
  - do 6 apply includes_app_r. apply includes_app_l.
    vm_compute. reflexivity.
Qed.

(** With deletion on the flag is written; with deletion off it is in the
    command only as part of the folder or of the destination. *)
Lemma command_delete_after m p d :
  includes (command m p d) (js "--delete-after") = true
  ↔ m ≠ DeletionMode.Off
    ∨ includes (p ++ js " " ++ d) (js "--delete-after") = true.
Proof.
  destruct (decide (m = DeletionMode.Off)) as [->|Hm].
  - rewrite command_off. split.
    + intros H. right. revert H. apply includes_app_inv.
      * vm_compute. reflexivity.
      * vm_compute. reflexivity.
    + intros [?|H]; [done|]. by apply includes_app_r.
  - split; [by left|]. intros _. unfold command.
    rewrite decide_True by done.
    do 2 apply includes_app_r. apply includes_app_l.
    vm_compute. reflexivity.
Qed.

(** What the command of a cycle contains, for every mode, folder and host:
    the delete-after flag whenever the deletion mode is not Off, and with
    the mode Off only when the folder, a space and the destination contain
    that text; always the include rule for [**.gitignore], the exclude rule
    for [/.git], the filter rule reading [.gitignore] and the output format
    [change: %n]. *)
Theorem command_contract (w : World) (s : State) (h p : jsstring)
  (Hhost : currentHost s = Some h) (Htrim : trim h ≠ [])
  (Hfolder : workspaceFolder w = Some p) :
  ∃ c,
    execs (trace (snd (runSyncCommand w s))) = execs (trace s) ++ [c] ∧
    (includes c (js "--delete-after") = true
     ↔ deletionMode s ≠ DeletionMode.Off
       ∨ includes (p ++ js " " ++ dest_path h) (js "--delete-after") = true) ∧
    includes c (js "--include='**.gitignore'") = true ∧
    includes c (js "--exclude='/.git'") = true ∧
    includes c (js "--filter=':- .gitignore'") = true ∧
    includes c (js "--out-format='change: %n'") = true.
Proof.
  exists (command (deletionMode s) p (dest_path h)).
  split; [by apply runSyncCommand_execs|].
  split; [apply command_delete_after | apply command_rules].
Qed.

Lemma command_contract_witness :
  ∃ c,
    execs (trace (snd (runSyncCommand (Sample.world Sample.ok)
                         (Sample.started DeletionMode.Once)))) = [c] ∧
    includes c (js "--delete-after") = true ∧
    includes c (js "--exclude='/.git'") = true.
Proof.
  assert (Ht : trim Sample.box ≠ []) by (vm_compute; discriminate).
  destruct (command_contract (Sample.world Sample.ok)
              (Sample.started DeletionMode.Once) Sample.box (js "/home/u/app")
              eq_refl Ht eq_refl) as (c & Hc & Hd & _ & He & _).
  exists c. split; [exact Hc|]. split; [|exact He].
  apply Hd. left. discriminate.
Defined.

(** C4, at a failing input: line 94 writes the delete-after flag by the
    deletion mode, lines 95 and 96 quote their arguments, but line 97 writes
    the folder into the command unquoted; with the deletion mode Off and a
    folder named [/home/u/a --delete-after b], the command handed to [exec]
    contains the flag, so that "the flag if and only if the mode is not
    Off" fails on the code. *)
Lemma delete_after_from_folder_name :
  deletionMode (Sample.started DeletionMode.Off) = DeletionMode.Off ∧
  ∃ c,
    execs (trace (snd (runSyncCommand (Sample.spaced Sample.ok)
                         (Sample.started DeletionMode.Off)))) = [c] ∧
    includes c (js "--delete-after") = true ∧
    ¬ (includes c (js "--delete-after") = true
       ↔ deletionMode (Sample.started DeletionMode.Off) ≠ DeletionMode.Off).
Proof.
  split; [reflexivity|].
  exists (command DeletionMode.Off (js "/home/u/a --delete-after b")
            (js "box:/srv/app/")).
  split; [vm_compute; reflexivity|].
  assert (H : includes
                (command DeletionMode.Off (js "/home/u/a --delete-after b")
                   (js "box:/srv/app/")) (js "--delete-after") = true)
    by (vm_compute; reflexivity).
  split; [exact H|]. intros [Hi _]. by apply Hi.
Qed.

(** ** The states of a cycle *)

(** What a cycle gives the status bar, in each of its four outcomes. *)
Lemma runSyncCommand_states w s :
  ∃ evs,
    trace (snd (runSyncCommand w s)) = trace s ++ evs ∧
    ((success (fst (runSyncCommand w s)) = false ∧
      (states evs = [SyncState.Init] ∨
       states evs = [SyncState.Syncing; SyncState.Error] ∨
       states evs
       = [SyncState.Syncing; SyncState.Syncing; SyncState.Error])) ∨
     (success (fst (runSyncCommand w s)) = true ∧
      states evs
      = [SyncState.Syncing; SyncState.Syncing; SyncState.Synced])).
Proof.
  destruct (negb (truthy (currentHost s))
            || bool_decide (trim (default [] (currentHost s)) = [])) eqn:E.
  - rewrite runSyncCommand_init by done. eexists. split; [done|].
    left. split; [done|]. by left.
  - apply orb_false_iff in E as [E1 E2].
    apply bool_decide_eq_false in E2.
    destruct (currentHost s) as [h|] eqn:Hh; [|done]. simpl in E2.
    destruct (workspaceFolder w) as [p|] eqn:Hp.
    + destruct (runSyncCommand_cases w s h p Hh E2 Hp)
        as [(m & _ & ->) | [(_ & _ & ->) | (_ & _ & ->)]];
        (eexists; split; [reflexivity|]).
      * left. split; [done|]. by do 2 right.
      * left. split; [done|]. by do 2 right.
      * right. split; [done|].
        rewrite states_app, states_success_events. done.
    + rewrite (runSyncCommand_no_workspace w s h) by done.
      eexists. split; [done|]. left. split; [done|]. right. by left.
Qed.

Lemma entered_after_syncing (l : list SyncState.t) :
  l = [SyncState.Init] ∨ (∃ rest, l = SyncState.Syncing :: rest) →
  ∀ pre st post,
    l = pre ++ st :: post → st ≠ SyncState.Init → st ≠ SyncState.Syncing →
    SyncState.Syncing ∈ pre.
Proof.
  intros [-> | [rest ->]] pre st post H Hi Hs.
  - destruct pre as [|a pre]; simpl in H.
    + by injection H as <-.
    + injection H as _ H. by destruct pre.
  - destruct pre as [|a pre]; simpl in H.
    + by injection H as <- _.
    + injection H as <- _. left.
Qed.

(** C9: two cycles in a row that both succeed, from a controller whose
    status bar has only ever been given Init, give it in all the states
    Init, Syncing, Synced, Syncing, Synced (repetitions of one state in a
    row counted once) and never Error; and in any cycle at all, a state
    other than Init and Syncing is given only after Syncing was given in
    that same cycle. *)
Theorem two_successful_cycles (w1 w2 : World) (s0 : State)
  (Hinit : states (trace s0) = [SyncState.Init])
  (H1 : success (fst (runSyncCommand w1 s0)) = true)
  (H2 : success (fst (runSyncCommand w2 (snd (runSyncCommand w1 s0))))
        = true) :
  let s2 := snd (runSyncCommand w2 (snd (runSyncCommand w1 s0))) in
  distinct (states (trace s2))
  = [SyncState.Init; SyncState.Syncing; SyncState.Synced;
     SyncState.Syncing; SyncState.Synced] ∧
  (SyncState.Error ∉ states (trace s2)) ∧
  ∀ (w : World) (s : State),
    ∃ evs,
      trace (snd (runSyncCommand w s)) = trace s ++ evs ∧
      ∀ pre st post,
        states evs = pre ++ st :: post →
        st ≠ SyncState.Init → st ≠ SyncState.Syncing →
        SyncState.Syncing ∈ pre.
Proof.
  intros s2. subst s2.
  destruct (runSyncCommand_states w1 s0) as (e1 & T1 & [[F _] | [_ S1]]);
    [congruence|].
  destruct (runSyncCommand_states w2 (snd (runSyncCommand w1 s0)))
    as (e2 & T2 & [[F _] | [_ S2]]); [congruence|].
  rewrite T2, T1, !states_app, Hinit, S1, S2.
  split; [reflexivity|]. split; [simpl; not_among|].
  intros w s.
  destruct (runSyncCommand_states w s) as (evs & T & Hs).
  exists evs. split; [done|]. apply entered_after_syncing.
  destruct Hs as [[_ [H | [H | H]]] | [_ H]]; rewrite H; eauto.
Qed.

Lemma two_successful_cycles_witness :
  distinct
    (states (trace (snd (runSyncCommand (Sample.world Sample.ok)
                           (snd (runSyncCommand (Sample.world Sample.ok)
                                   (Sample.started DeletionMode.Once)))))))
  = [SyncState.Init; SyncState.Syncing; SyncState.Synced;
     SyncState.Syncing; SyncState.Synced].
Proof.
  assert (H1 : success (fst (runSyncCommand (Sample.world Sample.ok)
                               (Sample.started DeletionMode.Once))) = true)
    by (vm_compute; reflexivity).
  assert (H2 : success
                 (fst (runSyncCommand (Sample.world Sample.ok)
                         (snd (runSyncCommand (Sample.world Sample.ok)
                                 (Sample.started DeletionMode.Once)))))
               = true) by (vm_compute; reflexivity).
  exact (proj1 (two_successful_cycles (Sample.world Sample.ok)
                  (Sample.world Sample.ok) (Sample.started DeletionMode.Once)
                  eq_refl H1 H2)).
Defined.

(** ** The registry *)

(** What removing a picked host does. *)
Lemma promptRemoveHost_picked (s : State) (h : jsstring) :
  h ≠ [] →
  snd (promptRemoveHost (Some h) s)
  = mkState (filter (λ host, host ≠ h) (remoteHosts s))
      (if bool_decide (Some h = currentHost s) then None else currentHost s)
      (lastSyncExecutionTime s) (deletionMode s)
      (filter (λ host, host ≠ h) (remoteHosts s))
      (workspaceState_lastUsedHost s)
      (trace s
       ++ (if bool_decide (Some h = currentHost s)
           then [StatusBar (Some SyncState.Init)] else [])
       ++ [ShowInformationMessage (js "Removed host: " ++ h)]).
Proof.
  intros Hh. unfold promptRemoveHost.
  assert (truthy (Some h) = true) as -> by (by destruct h).
  run. destruct (bool_decide (Some h = currentHost s)); simpl.
  - by rewrite <- app_assoc.
  - done.
Qed.

(** C7: removing a picked host clears the selection and gives the status
    bar Init when that host is the current one, and leaves the selection
    and the status bar alone when it is not; either way the host is no
    longer in the registry, which is the old registry without it, the other
    entries in their order, and the stored registry follows. *)
Theorem remove_host (s : State) (h : jsstring) (Hpicked : h ≠ []) :
  let s' := snd (promptRemoveHost (Some h) s) in
  (currentHost s = Some h →
     currentHost s' = None ∧ shown (trace s') = Some SyncState.Init) ∧
  (currentHost s ≠ Some h →
     currentHost s' = currentHost s ∧
     states (trace s') = states (trace s)) ∧
  (h ∉ remoteHosts s') ∧
  remoteHosts s' `sublist_of` remoteHosts s ∧
  (∀ x, x ≠ h → x ∈ remoteHosts s → x ∈ remoteHosts s') ∧
  remoteHosts s' = filter (λ host, host ≠ h) (remoteHosts s) ∧
  globalState_remoteHosts s' = remoteHosts s'.
Proof.
  intros s'. subst s'. rewrite promptRemoveHost_picked by done. simpl.
  split_and!.
  - intros E. rewrite bool_decide_eq_true_2 by done. split; [done|].
    apply shown_app. rewrite states_app. done.
  - intros E. rewrite bool_decide_eq_false_2 by done. split; [done|].
    rewrite states_app. simpl. by rewrite app_nil_r.
  - rewrite list_elem_of_filter. by intros [? _].
  - apply sublist_filter.
  - intros x Hx Hin. by apply list_elem_of_filter.
  - done.
  - done.
Qed.

Lemma remove_host_witness :
  currentHost (snd (promptRemoveHost (Some Sample.box)
                      (Sample.started DeletionMode.Off))) = None ∧
  remoteHosts (snd (promptRemoveHost (Some Sample.box)
                      (Sample.started DeletionMode.Off))) = [].
Proof.
  assert (Hb : Sample.box ≠ []) by (vm_compute; discriminate).
  destruct (remove_host (Sample.started DeletionMode.Off) Sample.box Hb)
    as (H1 & _ & _ & _ & _ & H6 & _).
  split; [exact (proj1 (H1 eq_refl))|].
  rewrite H6. vm_compute. reflexivity.
Defined.

(** [validateHost] with the reachability test, in its three outcomes. *)
Lemma validateHost_reachability (w : World) (s : State) (h : jsstring) :
  (¬ wellFormedHost h ∧
   validateHost w h true s
   = (false,
      record [ShowErrorMessage
                (js "codemirror: Invalid host format. Please use 'hostname:path'")]
        s)) ∨
  (wellFormedHost h ∧
   ∃ m, error (exec w (reachability_check h) None) = Some m ∧
        validateHost w h true s
        = (false,
           record [Exec (reachability_check h) None;
                   ShowErrorMessage
                     (js "codemirror: Cannot access remote path: " ++ m)] s)) ∨
  (wellFormedHost h ∧ ¬ unreachable w h ∧
   validateHost w h true s
   = (true, record [Exec (reachability_check h) None] s)).
Proof.
  unfold validateHost, unreachable.
  destruct (bool_decide _ || _ || _) eqn:E.
  - left. split; [|done]. intros Hw. apply validateHost_format in Hw.
    congruence.
  - right. apply validateHost_format in E.
    fold (reachability_check h).
    destruct (error (exec w (reachability_check h) None)) as [m|] eqn:Ee.
    + left. split; [done|]. exists m. split; [done|]. run.
      unfold record. simpl. by rewrite <- app_assoc.
    + right. split; [done|]. split; [by intros []|]. done.
Qed.

(** A cycle always shows: it gives the status bar at least one state. *)
Lemma runSyncCommand_seen (w : World) (s : State) :
  states (trace (snd (runSyncCommand w s))) ≠ states (trace s).
Proof.
  destruct (runSyncCommand_states w s) as (evs & -> & H).
  rewrite states_app. intros E.
  rewrite <- (app_nil_r (states (trace s))) in E at 2.
  apply app_inv_head in E.
  destruct H as [[_ [H | [H | H]]] | [_ H]]; congruence.
Qed.

(** C8: an attempt to add a host that is malformed, or whose remote listing
    fails, or that is in the registry already, changes none of the
    controller's variables and neither store; the status bar is given no
    state, so no cycle ran, and nothing but the reachability test is handed
    to [exec]; a well-formed, reachable host that is already registered is
    answered with the warning that it exists. *)
Theorem add_host_failure (w : World) (s : State) (h : jsstring)
  (Hentered : h ≠ [])
  (Hfail : ¬ wellFormedHost h ∨ unreachable w h ∨ h ∈ remoteHosts s) :
  let s' := snd (promptAddHost w (Some h) s) in
  remoteHosts s' = remoteHosts s ∧
  globalState_remoteHosts s' = globalState_remoteHosts s ∧
  (∃ evs, s' = record evs s ∧ states evs = [] ∧
          ∀ c cwd, Exec c cwd ∈ evs →
                   c = reachability_check h ∧ cwd = None) ∧
  (wellFormedHost h → ¬ unreachable w h →
     trace s'
     = trace s
       ++ [Exec (reachability_check h) None;
           ShowWarningMessage
             (js "codemirror: Host " ++ h ++ js " already exists, ignoring.")]).
Proof.
  intros s'. subst s'. unfold promptAddHost.
  assert (truthy (Some h) = true) as -> by (by destruct h).
  simpl. unfold mbind, M_bind.
  destruct (validateHost_reachability w s h)
    as [(Hw & ->) | [(Hw & m & Em & ->) | (Hw & Hr & ->)]]; simpl.
  - split; [done|]. split; [done|]. split; [|intros ?; contradiction].
    eexists. split; [done|]. split; [done|].
    intros c cwd Hin. apply list_elem_of_singleton in Hin. discriminate.
  - split; [done|]. split; [done|]. split.
    + eexists. split; [done|]. split; [done|].
      intros c cwd Hin. apply elem_of_cons in Hin as [[= -> ->] | Hin];
        [done|]. apply list_elem_of_singleton in Hin. discriminate.
    + intros _ Hr. destruct Hr. unfold unreachable. by rewrite Em.
  - destruct Hfail as [? | [? | Hin]]; [done | done |].
    run. rewrite bool_decide_eq_true_2 by done. simpl.
    split; [done|]. split; [done|]. split.
    + exists [Exec (reachability_check h) None;
              ShowWarningMessage
                (js "codemirror: Host " ++ h
                 ++ js " already exists, ignoring.")].
      split; [unfold record; simpl; by rewrite <- app_assoc|].
      split; [done|].
      intros c cwd Hc. apply elem_of_cons in Hc as [[= -> ->] | Hc];
        [done|]. apply list_elem_of_singleton in Hc. discriminate.
    + intros _ _. by rewrite <- app_assoc.
Qed.

Lemma add_host_failure_witness :
  remoteHosts (snd (promptAddHost (Sample.world Sample.ok) (Some Sample.box)
                      (Sample.started DeletionMode.Off)))
  = [Sample.box] ∧
  remoteHosts (snd (promptAddHost (Sample.world Sample.refused)
                      (Some (js "new:/srv")) (Sample.started DeletionMode.Off)))
  = [Sample.box] ∧
  remoteHosts (snd (promptAddHost (Sample.world Sample.ok)
                      (Some (js "nocolon")) (Sample.started DeletionMode.Off)))
  = [Sample.box].
Proof.
  split_and!.
  - refine (proj1 (add_host_failure (Sample.world Sample.ok)
                     (Sample.started DeletionMode.Off) Sample.box _ _)).
    + vm_compute. discriminate.
    + right. right. left.
  - refine (proj1 (add_host_failure (Sample.world Sample.refused)
                     (Sample.started DeletionMode.Off) (js "new:/srv") _ _)).
    + vm_compute. discriminate.
    + right. left. vm_compute. discriminate.
  - refine (proj1 (add_host_failure (Sample.world Sample.ok)
                     (Sample.started DeletionMode.Off) (js "nocolon") _ _)).
    + vm_compute. discriminate.
    + left. intros Hw. apply validateHost_format in Hw.
      vm_compute in Hw. discriminate.
Defined.

(** ** Checks on concrete data *)

Example split_host :
  split colon (js "box:/srv/app") = [js "box"; js "/srv/app"].
Proof. vm_compute. reflexivity. Qed.

Example split_empty : split colon [] = [[]].
Proof. reflexivity. Qed.

Example trim_both_ends : trim (js "  a b ") = js "a b".
Proof. vm_compute. reflexivity. Qed.

Example negative_latency : Number_toString (-42) = js "-42".
Proof. vm_compute. reflexivity. Qed.

Example activate_shows_init :
  snd (activate (loaded [Sample.box] (Some Sample.box)))
  = Sample.started DeletionMode.Off.
Proof. vm_compute. reflexivity. Qed.

Example command_written_out :
  command DeletionMode.On (js "/home/u/app") (js "box:/srv/app/")
  = js "rsync -avzh " ++ [tab; tab; tab] ++ js "--delete-after "
    ++ [tab; tab; tab]
    ++ js "--include='**.gitignore' --exclude='/.git' --filter=':- .gitignore' "
    ++ [tab; tab; tab] ++ js "--out-format='change: %n' " ++ [tab; tab; tab]
    ++ js "/home/u/app box:/srv/app/".
Proof. vm_compute. reflexivity. Qed.

Example no_folder_is_an_error :
  states (trace (snd (runSyncCommand (Sample.bare Sample.ok)
                        (Sample.started DeletionMode.Off))))
  = [SyncState.Init; SyncState.Syncing; SyncState.Error].
Proof. vm_compute. reflexivity. Qed.

Example host_added_and_synced :
  let s := snd (promptAddHost (Sample.world Sample.ok) (Some (js "new:/srv"))
                  (Sample.started DeletionMode.Off)) in
  remoteHosts s = [Sample.box; js "new:/srv"] ∧
  currentHost s = Some (js "new:/srv") ∧
  workspaceState_lastUsedHost s = Some (js "new:/srv") ∧
  shown (trace s) = Some SyncState.Synced.
Proof. vm_compute. repeat split. Qed.

(** ** What a cycle leaves alone *)

(** A cycle either fails and only adds to the trace, or succeeds and also
    remembers its latency and uses up a deletion mode Once. *)
Lemma runSyncCommand_outcome (w : World) (s : State) :
  ∃ evs,
    (success (fst (runSyncCommand w s)) = false ∧
     snd (runSyncCommand w s) = record evs s) ∨
    (success (fst (runSyncCommand w s)) = true ∧
     snd (runSyncCommand w s) = settled (endTime w - startTime w) evs s).
Proof.
  destruct (negb (truthy (currentHost s))
            || bool_decide (trim (default [] (currentHost s)) = [])) eqn:E.
  - rewrite runSyncCommand_init by done. eexists. by left.
  - apply orb_false_iff in E as [E1 E2].
    apply bool_decide_eq_false in E2.
    destruct (currentHost s) as [h|] eqn:Hh; [|done]. simpl in E2.
    destruct (workspaceFolder w) as [p|] eqn:Hp.
    + destruct (runSyncCommand_cases w s h p Hh E2 Hp)
        as [(m & _ & ->) | [(_ & _ & ->) | (_ & _ & ->)]]; eexists;
        [by left | by left | by right].
    + rewrite (runSyncCommand_no_workspace w s h) by done.
      eexists. by left.
Qed.

(** X1: with a usable host but no workspace folder open, the cycle shows an
    error message, resolves to the failure "no workspace folder found",
    gives the status bar Syncing and then Error, runs no process and leaves
    every variable as it was. *)
Theorem no_workspace_cycle (w : World) (s : State) (h : jsstring)
  (Hhost : currentHost s = Some h) (Htrim : trim h ≠ [])
  (Hfolder : workspaceFolder w = None) :
  fst (runSyncCommand w s)
  = mkResult false (Some (js "no workspace folder found")) ∧
  snd (runSyncCommand w s)
  = record [StatusBar (Some SyncState.Syncing);
            ShowErrorMessage (js "codemirror: no workspace folder found");
            StatusBar (Some SyncState.Error)] s ∧
  execs (trace (snd (runSyncCommand w s))) = execs (trace s).
Proof.
  rewrite (runSyncCommand_no_workspace w s h) by done. simpl.
  split; [done|]. split; [done|].
  rewrite execs_app. simpl. by rewrite app_nil_r.
Qed.

Lemma no_workspace_cycle_witness :
  fst (runSyncCommand (Sample.bare Sample.ok)
         (Sample.started DeletionMode.Once))
  = mkResult false (Some (js "no workspace folder found")).
Proof.
  assert (Ht : trim Sample.box ≠ []) by (vm_compute; discriminate).
  exact (proj1 (no_workspace_cycle (Sample.bare Sample.ok)
                  (Sample.started DeletionMode.Once) Sample.box
                  eq_refl Ht eq_refl)).
Defined.

(** X2: whatever its outcome, a cycle changes neither the registry nor the
    selected host nor either store, and what was on the trace stays at its
    head. *)
Theorem cycle_keeps_registry_and_selection (w : World) (s : State) :
  remoteHosts (snd (runSyncCommand w s)) = remoteHosts s ∧
  currentHost (snd (runSyncCommand w s)) = currentHost s ∧
  globalState_remoteHosts (snd (runSyncCommand w s))
  = globalState_remoteHosts s ∧
  workspaceState_lastUsedHost (snd (runSyncCommand w s))
  = workspaceState_lastUsedHost s ∧
  trace s `prefix_of` trace (snd (runSyncCommand w s)).
Proof.
  destruct (runSyncCommand_outcome w s) as (evs & [[_ ->] | [_ ->]]);
    simpl; split_and!; try done; by eexists.
Qed.

(** X3: the latency is remembered by successful cycles only: after a
    success it is the time between the two clock readings, after a failure
    it is what it was. *)
Theorem latency_remembered_on_success (w : World) (s : State) :
  lastSyncExecutionTime (snd (runSyncCommand w s))
  = if success (fst (runSyncCommand w s))
    then Some (endTime w - startTime w)%Z
    else lastSyncExecutionTime s.
Proof.
  destruct (runSyncCommand_outcome w s) as (evs & [[-> ->] | [-> ->]]);
    done.
Qed.

(** X4: a cycle changes the deletion mode in one case only, from Once to
    Off on success; On and Off outlive every cycle, and Once outlives every
    failed one, also those that never reach the transfer. *)
Theorem deletion_mode_after_cycle (w : World) (s : State) :
  deletionMode (snd (runSyncCommand w s))
  = if success (fst (runSyncCommand w s))
       && bool_decide (deletionMode s = DeletionMode.Once)
    then DeletionMode.Off
    else deletionMode s.
Proof.
  destruct (runSyncCommand_outcome w s) as (evs & [[-> ->] | [-> ->]]);
    done.
Qed.

(** X5: a cycle succeeds exactly when a host with text is selected, a
    folder is open and the process run on the command for them ends without
    error and without error-stream output. *)
Theorem cycle_succeeds_iff (w : World) (s : State) :
  success (fst (runSyncCommand w s)) = true
  ↔ ∃ h p,
      currentHost s = Some h ∧ trim h ≠ [] ∧ workspaceFolder w = Some p ∧
      error (exec w (command (deletionMode s) p (dest_path h)) (Some p))
      = None ∧
      stderr (exec w (command (deletionMode s) p (dest_path h)) (Some p))
      = [].
Proof.
  split.
  - destruct (negb (truthy (currentHost s))
              || bool_decide (trim (default [] (currentHost s)) = []))
      eqn:E.
    + by rewrite runSyncCommand_init.
    + apply orb_false_iff in E as [E1 E2].
      apply bool_decide_eq_false in E2.
      destruct (currentHost s) as [h|] eqn:Hh; [|done]. simpl in E2.
      destruct (workspaceFolder w) as [p|] eqn:Hp.
      * destruct (runSyncCommand_cases w s h p Hh E2 Hp)
          as [(m & _ & ->) | [(_ & _ & ->) | (E & Hs & ->)]]; try done.
        intros _. by exists h, p.
      * by rewrite (runSyncCommand_no_workspace w s h).
  - intros (h & p & Hh & Ht & Hp & E & Hs).
    destruct (runSyncCommand_cases w s h p Hh Ht Hp)
      as [(m & E' & _) | [(_ & Hs' & _) | (_ & _ & ->)]];
      [congruence | congruence | done].
Qed.

Lemma elem_of_Exec_execs c cwd evs : Exec c cwd ∈ evs → c ∈ execs evs.
Proof.
  intros H. unfold execs. apply list_elem_of_omap. by exists (Exec c cwd).
Qed.

Lemma exec_of_cycle c cwd c0 p rest :
  (∀ c' cwd', Exec c' cwd' ∉ rest) →
  Exec c cwd ∈ [StatusBar (Some SyncState.Syncing);
                StatusBar (Some SyncState.Syncing); Exec c0 (Some p)] ++ rest →
  cwd = Some p.
Proof.
  intros Hrest H. apply elem_of_app in H as [H | H]; [|by apply Hrest in H].
  repeat (apply elem_of_cons in H as [H | H]; [try discriminate|]).
  - by injection H as _ ->.
  - by apply elem_of_nil in H.
Qed.

(** X6: a cycle runs at most one process, and runs it in the workspace
    folder: every [exec] it adds to the trace has that folder as working
    directory. *)
Theorem cycle_runs_in_the_folder (w : World) (s : State) :
  ∃ evs,
    trace (snd (runSyncCommand w s)) = trace s ++ evs ∧
    length (execs evs) ≤ 1 ∧
    ∀ c cwd, Exec c cwd ∈ evs →
             is_Some (workspaceFolder w) ∧ cwd = workspaceFolder w.
Proof.
  destruct (negb (truthy (currentHost s))
            || bool_decide (trim (default [] (currentHost s)) = [])) eqn:E.
  - rewrite runSyncCommand_init by done. eexists. split; [done|].
    split; [simpl; lia|]. intros c cwd H.
    apply list_elem_of_singleton in H. discriminate.
  - apply orb_false_iff in E as [E1 E2].
    apply bool_decide_eq_false in E2.
    destruct (currentHost s) as [h|] eqn:Hh; [|done]. simpl in E2.
    destruct (workspaceFolder w) as [p|] eqn:Hp.
    + destruct (runSyncCommand_cases w s h p Hh E2 Hp)
        as [(m & _ & ->) | [(_ & _ & ->) | (_ & _ & ->)]];
        (eexists; split; [reflexivity|]);
        (split; [rewrite execs_app; try rewrite execs_success_events;
                 simpl; lia|]);
        intros c cwd H; (split; [by eauto|]);
        apply exec_of_cycle in H; try done.
      * intros c' cwd'. not_among.
      * intros c' cwd'. not_among.
      * intros c' cwd' H'. apply elem_of_Exec_execs in H'.
        rewrite execs_success_events in H'. by apply elem_of_nil in H'.
    + rewrite (runSyncCommand_no_workspace w s h) by done.
      eexists. split; [done|]. split; [simpl; lia|]. intros c cwd H.
      repeat (apply elem_of_cons in H as [H | H]; [discriminate|]).
      by apply elem_of_nil in H.
Qed.

(** ** Selecting and registering hosts *)

(** [setHost] is its cycle on the state with the host selected, followed on
    success by the update of the last used host. *)
Lemma setHost_outcome (w : World) (s : State) (h : jsstring) :
  snd (setHost w h s)
  = if success (fst (runSyncCommand w (selected h s)))
    then snd (workspaceState_update (Some h)
                (snd (runSyncCommand w (selected h s))))
    else snd (runSyncCommand w (selected h s)).
Proof.
  unfold setHost, selected. unfold mbind, M_bind. simpl.
  destruct (runSyncCommand w _) as [r s2]. simpl.
  by destruct (success r).
Qed.

(** X7: [setHost] selects the host whatever its cycle does; the host is
    stored as last used only when the cycle succeeds, the stored one being
    kept otherwise; the registry is not touched. *)
Theorem setHost_stored_only_on_success (w : World) (s : State)
    (h : jsstring) :
  currentHost (snd (setHost w h s)) = Some h ∧
  workspaceState_lastUsedHost (snd (setHost w h s))
  = (if success (fst (runSyncCommand w (selected h s)))
     then Some h else workspaceState_lastUsedHost s) ∧
  remoteHosts (snd (setHost w h s)) = remoteHosts s ∧
  globalState_remoteHosts (snd (setHost w h s)) = globalState_remoteHosts s.
Proof.
  rewrite setHost_outcome.
  destruct (runSyncCommand_outcome w (selected h s))
    as (evs & [[-> ->] | [-> ->]]); done.
Qed.

(** Adding a well-formed, reachable host that is not registered: the
    registration, then [setHost]. *)
Lemma promptAddHost_added (w : World) (s : State) (h : jsstring) :
  wellFormedHost h → ¬ unreachable w h → h ∉ remoteHosts s →
  promptAddHost w (Some h) s = setHost w h (registered h s).
Proof.
  intros Hw Hr Hn. unfold promptAddHost.
  assert (truthy (Some h) = true) as ->.
  { destruct Hw as (a & b & -> & Ha & _). by destruct a. }
  simpl. unfold mbind at 1, M_bind at 1.
  destruct (validateHost_reachability w s h)
    as [(Hw' & _) | [(_ & m & Em & _) | (_ & _ & ->)]].
  - done.
  - destruct Hr. unfold unreachable. by rewrite Em.
  - simpl. unfold mbind at 1, M_bind at 1, get at 1. simpl.
    rewrite bool_decide_eq_false_2 by done.
    unfold registered. run. by rewrite <- app_assoc.
Qed.

(** X8: adding a well-formed, reachable host that is not yet registered
    appends it to the registry and to the stored registry, selects it, and
    stores it as last used exactly when the cycle run for it succeeds. *)
Theorem add_host_success (w : World) (s : State) (h : jsstring)
  (Hformat : wellFormedHost h) (Hreach : ¬ unreachable w h)
  (Hnew : h ∉ remoteHosts s) :
  let s' := snd (promptAddHost w (Some h) s) in
  remoteHosts s' = remoteHosts s ++ [h] ∧
  globalState_remoteHosts s' = remoteHosts s ++ [h] ∧
  currentHost s' = Some h ∧
  workspaceState_lastUsedHost s'
  = (if success (fst (runSyncCommand w (selected h (registered h s))))
     then Some h else workspaceState_lastUsedHost s).
Proof.
  intros s'. subst s'. rewrite promptAddHost_added by done.
  rewrite setHost_outcome.
  destruct (runSyncCommand_outcome w (selected h (registered h s)))
    as (evs & [[-> ->] | [-> ->]]); done.
Qed.

Lemma wellFormedHost_new : wellFormedHost (js "new:/srv").
Proof. apply validateHost_format. vm_compute. reflexivity. Qed.

Lemma wellFormedHost_box : wellFormedHost Sample.box.
Proof. apply validateHost_format. vm_compute. reflexivity. Qed.

Lemma new_not_registered :
  js "new:/srv" ∉ remoteHosts (Sample.started DeletionMode.Off).
Proof.
  intros H. apply list_elem_of_singleton in H. vm_compute in H. discriminate.
Qed.

Lemma reachable_when_ok h : ¬ unreachable (Sample.world Sample.ok) h.
Proof. intros H. by apply H. Qed.

Lemma add_host_success_witness :
  remoteHosts (snd (promptAddHost (Sample.world Sample.ok)
                      (Some (js "new:/srv")) (Sample.started DeletionMode.Off)))
  = [Sample.box; js "new:/srv"].
Proof.
  exact (proj1 (add_host_success (Sample.world Sample.ok)
                  (Sample.started DeletionMode.Off) (js "new:/srv")
                  wellFormedHost_new (reachable_when_ok _)
                  new_not_registered)).
Defined.

(** What [promptAddHost] can do to the registry and its stored copy:
    nothing, or append to both a well-formed, reachable host that was not
    in the registry. *)
Lemma promptAddHost_registry (w : World) (s : State)
    (newHost : option jsstring) :
  (remoteHosts (snd (promptAddHost w newHost s)) = remoteHosts s ∧
   globalState_remoteHosts (snd (promptAddHost w newHost s))
   = globalState_remoteHosts s) ∨
  ∃ h, newHost = Some h ∧ wellFormedHost h ∧ ¬ unreachable w h ∧
       (h ∉ remoteHosts s) ∧
       remoteHosts (snd (promptAddHost w newHost s)) = remoteHosts s ++ [h] ∧
       globalState_remoteHosts (snd (promptAddHost w newHost s))
       = remoteHosts s ++ [h].
Proof.
  destruct newHost as [h|]; [|by left].
  destruct (validateHost_reachability w s h)
    as [(Hw & E) | [(Hw & m & Em & E) | (Hw & Hr & E)]].
  - left. unfold promptAddHost. destruct (truthy (Some h)); [|done].
    simpl. unfold mbind, M_bind. by rewrite E.
  - left. unfold promptAddHost. destruct (truthy (Some h)); [|done].
    simpl. unfold mbind, M_bind. by rewrite E.
  - destruct (decide (h ∈ remoteHosts s)) as [Hin|Hn].
    + left. unfold promptAddHost. destruct (truthy (Some h)); [|done].
      simpl. unfold mbind, M_bind. rewrite E. run.
      by rewrite bool_decide_eq_true_2.
    + right. exists h. split_and!; try done;
        rewrite promptAddHost_added by done; rewrite setHost_outcome;
        destruct (runSyncCommand_outcome w (selected h (registered h s)))
          as (evs & [[-> ->] | [-> ->]]); done.
Qed.

(** X9: a registry without repetitions stays without repetitions through
    any attempt to add a host, whatever is entered. *)
Theorem registry_stays_unique (w : World) (s : State)
    (newHost : option jsstring)
  (Hunique : NoDup (remoteHosts s)) :
  NoDup (remoteHosts (snd (promptAddHost w newHost s))).
Proof.
  destruct (promptAddHost_registry w s newHost)
    as [[-> _] | (h & _ & _ & _ & Hn & -> & _)]; [done|].
  apply NoDup_app. split_and!; [done| |apply NoDup_singleton].
  intros x Hx Hx'. apply list_elem_of_singleton in Hx'. by subst.
Qed.

Lemma registry_stays_unique_witness :
  NoDup (remoteHosts (snd (promptAddHost (Sample.world Sample.ok)
                             (Some Sample.box)
                             (Sample.started DeletionMode.Off)))).
Proof.
  apply registry_stays_unique. apply NoDup_singleton.
Defined.

(** X10: a registry of well-formed hosts stays one through any attempt to
    add a host: nothing malformed is ever appended. *)
Theorem registry_stays_well_formed (w : World) (s : State)
    (newHost : option jsstring)
  (Hformed : Forall wellFormedHost (remoteHosts s)) :
  Forall wellFormedHost (remoteHosts (snd (promptAddHost w newHost s))).
Proof.
  destruct (promptAddHost_registry w s newHost)
    as [[-> _] | (h & _ & Hw & _ & _ & -> & _)]; [done|].
  apply Forall_app. split; [done|]. by apply Forall_singleton.
Qed.

Lemma registry_stays_well_formed_witness :
  Forall wellFormedHost
    (remoteHosts (snd (promptAddHost (Sample.world Sample.ok)
                         (Some (js "new:/srv"))
                         (Sample.started DeletionMode.Off)))).
Proof.
  apply registry_stays_well_formed. apply Forall_singleton.
  exact wellFormedHost_box.
Defined.

Lemma filter_absent (h : jsstring) (l : list jsstring) :
  h ∉ l → filter (λ host, host ≠ h) l = l.
Proof.
  induction l as [|x l IH]; [done|]. intros Hn.
  apply not_elem_of_cons in Hn as [Hx Hl].
  rewrite filter_cons_True by done. by rewrite IH.
Qed.

Lemma wellFormedHost_nonempty h : wellFormedHost h → h ≠ [].
Proof. intros (a & b & -> & Ha & _). by destruct a. Qed.

(** X11: removing a picked host that is not in the registry leaves the
    registry as it is, and still overwrites the stored registry with it and
    announces the removal. *)
Theorem remove_absent_host (s : State) (h : jsstring)
  (Hpicked : h ≠ []) (Habsent : h ∉ remoteHosts s) :
  let s' := snd (promptRemoveHost (Some h) s) in
  remoteHosts s' = remoteHosts s ∧
  globalState_remoteHosts s' = remoteHosts s ∧
  last (trace s') = Some (ShowInformationMessage (js "Removed host: " ++ h)).
Proof.
  intros s'. subst s'. rewrite promptRemoveHost_picked by done. simpl.
  rewrite filter_absent by done. split; [done|]. split; [done|].
  rewrite app_assoc. apply last_snoc.
Qed.

Lemma remove_absent_host_witness :
  remoteHosts (snd (promptRemoveHost (Some (js "new:/srv"))
                      (Sample.started DeletionMode.Off)))
  = [Sample.box].
Proof.
  refine (proj1 (remove_absent_host (Sample.started DeletionMode.Off)
                   (js "new:/srv") _ new_not_registered)).
  vm_compute. discriminate.
Defined.

(** X12: adding a new host and then removing it gives the registry and the
    stored registry back as they were; nothing is selected afterwards and
    the status bar shows Init, whatever was selected before the two
    steps. *)
Theorem add_then_remove (w : World) (s : State) (h : jsstring)
  (Hformat : wellFormedHost h) (Hreach : ¬ unreachable w h)
  (Hnew : h ∉ remoteHosts s) :
  let s' := snd (promptRemoveHost (Some h)
                   (snd (promptAddHost w (Some h) s))) in
  remoteHosts s' = remoteHosts s ∧
  globalState_remoteHosts s' = remoteHosts s ∧
  currentHost s' = None ∧
  shown (trace s') = Some SyncState.Init.
Proof.
  intros s'. subst s'.
  rewrite promptRemoveHost_picked by (by apply wellFormedHost_nonempty).
  rewrite promptAddHost_added by done. rewrite setHost_outcome.
  assert (F : filter (λ host, host ≠ h) (remoteHosts s ++ [h])
              = remoteHosts s).
  { rewrite filter_app, filter_absent by done.
    rewrite filter_cons_False; [|intros H; by apply H].
    apply app_nil_r. }
  destruct (runSyncCommand_outcome w (selected h (registered h s)))
    as (evs & [[-> ->] | [-> ->]]); simpl; rewrite F;
    rewrite bool_decide_eq_true_2 by done;
    (split_and!; try done; by apply shown_app).
Qed.

Lemma add_then_remove_witness :
  remoteHosts
    (snd (promptRemoveHost (Some (js "new:/srv"))
            (snd (promptAddHost (Sample.world Sample.ok)
                    (Some (js "new:/srv"))
                    (Sample.started DeletionMode.Off)))))
  = [Sample.box].
Proof.
  exact (proj1 (add_then_remove (Sample.world Sample.ok)
                  (Sample.started DeletionMode.Off) (js "new:/srv")
                  wellFormedHost_new (reachable_when_ok _)
                  new_not_registered)).
Defined.

(** X13: with the reachability test, [validateHost] answers true exactly
    for a well-formed host whose remote listing succeeds; it changes no
    variable, gives the status bar nothing, and hands the listing to [exec]
    for well-formed hosts only. *)
Theorem validateHost_reachable_iff (w : World) (s : State) (h : jsstring) :
  (fst (validateHost w h true s) = true
   ↔ wellFormedHost h ∧ ¬ unreachable w h) ∧
  ∃ evs,
    snd (validateHost w h true s) = record evs s ∧
    states evs = [] ∧
    (wellFormedHost h → execs evs = [reachability_check h]) ∧
    (¬ wellFormedHost h → execs evs = []).
Proof.
  destruct (validateHost_reachability w s h)
    as [(Hw & ->) | [(Hw & m & Em & ->) | (Hw & Hr & ->)]]; simpl.
  - split; [split; [done | by intros []]|].
    eexists. split_and!; try done.
  - split.
    + split; [done|]. intros [_ Hr]. destruct Hr. unfold unreachable.
      by rewrite Em.
    + eexists. split_and!; try done.
  - split; [done|]. eexists. split_and!; try done.
Qed.

(** X14: for a host made of a name and a path around its only colon, the
    reachability test is [ssh name -t "ls path"], the two parts written
    into the command as they are. *)
Theorem reachability_check_parts (hostname path : jsstring)
  (Hname : colon ∉ hostname) (Hpath : colon ∉ path) :
  reachability_check (hostname ++ colon :: path)
  = js "ssh " ++ hostname ++ js " -t " ++ [dquote] ++ js "ls " ++ path
    ++ [dquote].
Proof.
  unfold reachability_check.
  by rewrite (proj2 (split_two colon (hostname ++ colon :: path)
                       hostname path)).
Qed.

Lemma reachability_check_parts_witness :
  reachability_check (js "box" ++ colon :: js "/srv/app")
  = js "ssh box -t " ++ [dquote] ++ js "ls /srv/app" ++ [dquote].
Proof.
  rewrite reachability_check_parts.
  - vm_compute. reflexivity.
  - apply (bool_decide_unpack (colon ∉ js "box")). vm_compute. exact I.
  - apply (bool_decide_unpack (colon ∉ js "/srv/app")). vm_compute. exact I.
Defined.

(** ** A cycle in its two steps *)

Lemma runSyncCommand_start_init (w : World) (s : State) :
  negb (truthy (currentHost s))
  || bool_decide (trim (default [] (currentHost s)) = []) = true →
  runSyncCommand_start w s
  = (inl (mkResult false (Some (js "no remote host selected"))),
     record [StatusBar (Some SyncState.Init)] s).
Proof.
  intros E. unfold runSyncCommand_start.
  unfold mbind at 1, M_bind at 1, get at 1. rewrite E. reflexivity.
Qed.

Lemma runSyncCommand_start_exec (w : World) (s : State) (h p : jsstring) :
  currentHost s = Some h → trim h ≠ [] → workspaceFolder w = Some p →
  runSyncCommand_start w s
  = (inr (mkPending (startTime w)
            (command (deletionMode s) p (dest_path h)) p),
     record [StatusBar (Some SyncState.Syncing);
             StatusBar (Some SyncState.Syncing);
             Exec (command (deletionMode s) p (dest_path h)) (Some p)] s).
Proof.
  intros Hh Ht Hp. unfold runSyncCommand_start.
  unfold mbind at 1, M_bind at 1, get at 1. rewrite Hh.
  assert (truthy (Some h) = true) as -> by (by destruct h).
  simpl. rewrite bool_decide_eq_false_2 by done. rewrite Hp.
  run. unfold record. simpl. by rewrite <- !app_assoc.
Qed.

(** The cycle run to its end is its executor followed, when a transfer was
    started, by the callback of that transfer with nothing in between. *)
Lemma runSyncCommand_two_steps (w : World) (s : State) :
  runSyncCommand w s
  = match runSyncCommand_start w s with
    | (inl result, s') => (result, s')
    | (inr p, s') => complete w p s'
    end.
Proof.
  destruct (negb (truthy (currentHost s))
            || bool_decide (trim (default [] (currentHost s)) = [])) eqn:E.
  - by rewrite runSyncCommand_init, runSyncCommand_start_init.
  - apply orb_false_iff in E as [E1 E2].
    apply bool_decide_eq_false in E2.
    destruct (currentHost s) as [h|] eqn:Hh; [|done]. simpl in E2.
    destruct (workspaceFolder w) as [p|] eqn:Hp.
    + rewrite (runSyncCommand_exec w s h p),
        (runSyncCommand_start_exec w s h p) by done. reflexivity.
    + rewrite (runSyncCommand_no_workspace w s h) by done.
      unfold runSyncCommand_start.
      unfold mbind at 1, M_bind at 1, get at 1. rewrite Hh.
      assert (truthy (Some h) = true) as -> by (by destruct h).
      simpl. rewrite bool_decide_eq_false_2 by done. rewrite Hp.
      run. unfold record. simpl. by rewrite <- !app_assoc.
Qed.

Lemma onDidChange_file_exec (w : World) (s : State) (h p : jsstring) :
  currentHost s = Some h → trim h ≠ [] → workspaceFolder w = Some p →
  onDidChange w (js "file") s
  = (Some (mkPending (startTime w)
             (command (deletionMode s) p (dest_path h)) p),
     record [StatusBar (Some SyncState.Syncing);
             StatusBar (Some SyncState.Syncing);
             Exec (command (deletionMode s) p (dest_path h)) (Some p)] s).
Proof.
  intros Hh Ht Hp. unfold onDidChange.
  rewrite bool_decide_eq_true_2 by done. unfold mbind, M_bind.
  by rewrite (runSyncCommand_start_exec w s h p).
Qed.

(** ** Deletion mode Once, from the pick to its end *)

Lemma promptDeletionMode_picked (s : State) (mode : DeletionMode.t) :
  snd (promptDeletionMode (Some mode) s)
  = mkState (remoteHosts s) (currentHost s) (lastSyncExecutionTime s) mode
      (globalState_remoteHosts s) (workspaceState_lastUsedHost s)
      (trace s ++ [StatusBar None]).
Proof. reflexivity. Qed.

(** X15: after Once is picked, every transfer started before a success is
    reported is built for Once: two change events in a row, the second
    handled before the callback of the first, both start the command for
    Once. The callback of a transfer that ended well then leaves the mode
    at Off, and the transfer started by the next change event is built for
    Off. *)
Theorem once_covers_transfers_started_before_success
    (w1 w2 w3 wc : World) (s : State) (h p1 p2 p3 : jsstring)
  (Hhost : currentHost s = Some h) (Htrim : trim h ≠ [])
  (Hfolder1 : workspaceFolder w1 = Some p1)
  (Hfolder2 : workspaceFolder w2 = Some p2)
  (Hfolder3 : workspaceFolder w3 = Some p3)
  (Hok : error (exec wc (command DeletionMode.Once p1 (dest_path h))
                  (Some p1)) = None)
  (Hquiet : stderr (exec wc (command DeletionMode.Once p1 (dest_path h))
                      (Some p1)) = []) :
  let s0 := snd (promptDeletionMode (Some DeletionMode.Once) s) in
  let first := onDidChange w1 (js "file") s0 in
  let second := onDidChange w2 (js "file") (snd first) in
  let q1 :=
    mkPending (startTime w1) (command DeletionMode.Once p1 (dest_path h)) p1 in
  let reported := complete wc q1 (snd second) in
  let third := onDidChange w3 (js "file") (snd reported) in
  fst first = Some q1 ∧
  fst second
  = Some (mkPending (startTime w2)
            (command DeletionMode.Once p2 (dest_path h)) p2) ∧
  success (fst reported) = true ∧
  deletionMode (snd reported) = DeletionMode.Off ∧
  fst third
  = Some (mkPending (startTime w3)
            (command DeletionMode.Off p3 (dest_path h)) p3).
Proof.
  intros s0 first second q1 reported third.
  subst third reported q1 second first s0.
  rewrite promptDeletionMode_picked.
  set (s0 := mkState _ _ _ _ _ _ _).
  rewrite (onDidChange_file_exec w1 s0 h p1) by done. simpl.
  set (s1 := record _ s0).
  rewrite (onDidChange_file_exec w2 s1 h p2) by done. simpl.
  set (s2 := record _ s1).
  unfold complete. simpl. rewrite exec_callback_ok by done. simpl.
  split; [done|]. split; [done|]. split; [done|]. split; [done|].
  set (s3 := settled _ _ s2).
  by rewrite (onDidChange_file_exec w3 s3 h p3).
Qed.

Lemma once_covers_transfers_started_before_success_witness :
  let s0 := snd (promptDeletionMode (Some DeletionMode.Once)
                   (Sample.started DeletionMode.Off)) in
  let first := onDidChange (Sample.world Sample.ok) (js "file") s0 in
  let second := onDidChange (Sample.world Sample.ok) (js "file") (snd first) in
  includes (default [] (pending_command <$> fst first)) (js "--delete-after")
  = true ∧
  includes (default [] (pending_command <$> fst second)) (js "--delete-after")
  = true.
Proof.
  intros s0 first second.
  assert (Ht : trim Sample.box ≠ []) by (vm_compute; discriminate).
  destruct (once_covers_transfers_started_before_success
              (Sample.world Sample.ok) (Sample.world Sample.ok)
              (Sample.world Sample.ok) (Sample.world Sample.ok)
              (Sample.started DeletionMode.Off) Sample.box
              (js "/home/u/app") (js "/home/u/app") (js "/home/u/app")
              eq_refl Ht eq_refl eq_refl eq_refl eq_refl eq_refl)
    as (H1 & H2 & _).
  subst second first s0. rewrite H2, H1. simpl.
  split; vm_compute; reflexivity.
Defined.

(** ** The menu and the change events *)

Lemma colon_in_wellFormedHost h : wellFormedHost h → colon ∈ h.
Proof.
  intros (a & b & -> & _). apply elem_of_app. right. left.
Qed.

Lemma labels_have_no_colon :
  (colon ∉ label_add) ∧ (colon ∉ label_deletion) ∧
  (colon ∉ label_remove) ∧ (colon ∉ label_disable).
Proof.
  split_and!.
  - apply (bool_decide_unpack (colon ∉ label_add)). vm_compute. exact I.
  - apply (bool_decide_unpack (colon ∉ label_deletion)). vm_compute. exact I.
  - apply (bool_decide_unpack (colon ∉ label_remove)). vm_compute. exact I.
  - apply (bool_decide_unpack (colon ∉ label_disable)). vm_compute. exact I.
Qed.

Lemma promptSelectHost_disable (w : World) (s : State)
    (newHost : option jsstring) (mode : option DeletionMode.t)
    (hostToRemove : option jsstring) :
  snd (promptSelectHost w (Some label_disable) newHost mode hostToRemove s)
  = mkState (remoteHosts s) None (lastSyncExecutionTime s) (deletionMode s)
      (globalState_remoteHosts s) None
      (trace s ++ [StatusBar (Some SyncState.Init)]).
Proof.
  unfold promptSelectHost.
  assert (bool_decide (label_disable = label_add) = false) as ->
    by (vm_compute; reflexivity).
  assert (bool_decide (label_disable = label_deletion) = false) as ->
    by (vm_compute; reflexivity).
  assert (bool_decide (label_disable = label_remove) = false) as ->
    by (vm_compute; reflexivity).
  rewrite bool_decide_eq_true_2 by done. reflexivity.
Qed.

(** X16: picking Disable Sync clears the selection and the stored last used
    host, shows Init and keeps the registry; a change event that follows
    runs no process and leaves Init shown. *)
Theorem disable_sync_stops_transfers (w w' : World) (s : State)
    (newHost : option jsstring) (mode : option DeletionMode.t)
    (hostToRemove : option jsstring) :
  let s1 := snd (promptSelectHost w (Some label_disable) newHost mode
                   hostToRemove s) in
  let s2 := snd (onDidChange w' (js "file") s1) in
  currentHost s1 = None ∧
  workspaceState_lastUsedHost s1 = None ∧
  remoteHosts s1 = remoteHosts s ∧
  shown (trace s1) = Some SyncState.Init ∧
  execs (trace s2) = execs (trace s) ∧
  shown (trace s2) = Some SyncState.Init.
Proof.
  intros s1 s2. subst s2 s1. rewrite promptSelectHost_disable.
  set (s1 := mkState _ _ _ _ _ _ _).
  split; [done|]. split; [done|]. split; [done|].
  split; [by apply shown_app|].
  unfold onDidChange. rewrite bool_decide_eq_true_2 by done.
  unfold mbind, M_bind. rewrite (runSyncCommand_start_init w' s1) by done.
  simpl. split; [|by apply shown_app].
  rewrite !execs_app. simpl. by rewrite !app_nil_r.
Qed.

(** X17: picking a well-formed host in the menu is [setHost] on it: none of
    the four fixed labels has a colon, so none can stand for such a host,
    and the answers to the other prompts play no part. *)
Theorem menu_selects_well_formed_host (w : World) (s : State)
    (h : jsstring) (newHost : option jsstring)
    (mode : option DeletionMode.t) (hostToRemove : option jsstring)
  (Hformat : wellFormedHost h) :
  promptSelectHost w (Some h) newHost mode hostToRemove s = setHost w h s.
Proof.
  apply colon_in_wellFormedHost in Hformat.
  destruct labels_have_no_colon as (Ha & Hd & Hr & Hs).
  unfold promptSelectHost.
  rewrite !bool_decide_eq_false_2; [done| | | |]; by intros ->.
Qed.

Lemma menu_selects_well_formed_host_witness :
  promptSelectHost (Sample.world Sample.ok) (Some Sample.box) None None None
    (Sample.started DeletionMode.Off)
  = setHost (Sample.world Sample.ok) Sample.box
      (Sample.started DeletionMode.Off).
Proof.
  exact (menu_selects_well_formed_host (Sample.world Sample.ok)
           (Sample.started DeletionMode.Off) Sample.box None None None
           wellFormedHost_box).
Defined.

(** ** The stores and the next session *)

Lemma restart_fields (s : State) :
  remoteHosts (restart s) = globalState_remoteHosts s ∧
  currentHost (restart s) = workspaceState_lastUsedHost s ∧
  deletionMode (restart s) = DeletionMode.Off ∧
  execs (trace (restart s)) = [].
Proof. done. Qed.

Lemma promptRemoveHost_registry (s : State) (picked : option jsstring) :
  globalState_remoteHosts s = remoteHosts s →
  globalState_remoteHosts (snd (promptRemoveHost picked s))
  = remoteHosts (snd (promptRemoveHost picked s)).
Proof.
  intros H. destruct picked as [[|c h]|]; [done| |done].
  by rewrite promptRemoveHost_picked.
Qed.

(** X18: through every pick in the menu (a host, Disable Sync, a new host,
    a deletion mode, a removal), whatever is answered to the prompt that
    follows, the stored registry stays equal to the registry, so that the
    next session starts with the registry this one ended with. *)
Theorem stored_registry_follows (w : World) (s : State)
    (selection newHost : option jsstring) (mode : option DeletionMode.t)
    (hostToRemove : option jsstring)
  (Hsync : globalState_remoteHosts s = remoteHosts s) :
  let s' := snd (promptSelectHost w selection newHost mode hostToRemove s) in
  globalState_remoteHosts s' = remoteHosts s' ∧
  remoteHosts (restart s') = remoteHosts s'.
Proof.
  intros s'. assert (H : globalState_remoteHosts s' = remoteHosts s');
    [|split; [done|]; by rewrite (proj1 (restart_fields s'))].
  subst s'. unfold promptSelectHost. destruct selection as [label|]; [|done].
  repeat case_bool_decide.
  - destruct (promptAddHost_registry w s newHost)
      as [[-> ->] | (h & _ & _ & _ & _ & -> & ->)]; done.
  - by destruct mode.
  - by apply promptRemoveHost_registry.
  - done.
  - rewrite setHost_outcome.
    destruct (runSyncCommand_outcome w (selected label s))
      as (evs & [[-> ->] | [-> ->]]); done.
Qed.

Lemma stored_registry_follows_witness :
  remoteHosts
    (restart (snd (promptSelectHost (Sample.world Sample.ok)
                     (Some label_add) (Some (js "new:/srv")) None None
                     (Sample.started DeletionMode.Off))))
  = [Sample.box; js "new:/srv"].
Proof.
  rewrite (proj2 (stored_registry_follows (Sample.world Sample.ok)
                    (Sample.started DeletionMode.Off) (Some label_add)
                    (Some (js "new:/srv")) None None eq_refl)).
  vm_compute. reflexivity.
Defined.

(** X19: removing the host that is stored as last used clears the selection
    of this session only: the store of the last used host is not written,
    so the next session starts with the removed host selected although it
    is no longer in the registry. *)
Theorem removed_host_selected_again (s : State) (h : jsstring)
  (Hpicked : h ≠ [])
  (Hlast : workspaceState_lastUsedHost s = Some h) :
  let s' := snd (promptRemoveHost (Some h) s) in
  workspaceState_lastUsedHost s' = Some h ∧
  currentHost (restart s') = Some h ∧
  (h ∉ remoteHosts (restart s')).
Proof.
  intros s'. subst s'.
  destruct (restart_fields (snd (promptRemoveHost (Some h) s)))
    as (-> & -> & _).
  rewrite promptRemoveHost_picked by done. simpl.
  split; [done|]. split; [done|].
  rewrite list_elem_of_filter. by intros [? _].
Qed.

Lemma removed_host_selected_again_witness :
  currentHost
    (restart (snd (promptRemoveHost (Some Sample.box)
                     (Sample.started DeletionMode.Off))))
  = Some Sample.box.
Proof.
  refine (proj1 (proj2 (removed_host_selected_again
                          (Sample.started DeletionMode.Off) Sample.box
                          _ eq_refl))).
  vm_compute. discriminate.
Defined.

(** ** Strings of the cycle *)

(** X20: the destination always ends with a slash, and building the
    destination of a destination changes nothing. *)
Theorem dest_path_idempotent (h : jsstring) :
  endsWith (dest_path h) [slash] = true ∧
  dest_path (dest_path h) = dest_path h.
Proof.
  assert (E : endsWith (dest_path h) [slash] = true).
  { unfold dest_path. destruct (endsWith h [slash]) eqn:E; [done|].
    apply endsWith_spec. by exists h. }
  split; [done|]. unfold dest_path at 1. by rewrite E.
Qed.

Lemma trimStart_hasText s :
  hasText s → ∃ c rest, trimStart s = c :: rest ∧ isWhiteSpace c = false.
Proof.
  intros (c & Hin & Hc). induction s as [|x s IH]; [by apply elem_of_nil in Hin|].
  simpl. destruct (isWhiteSpace x) eqn:Hx.
  - apply elem_of_cons in Hin as [-> | Hin]; [congruence|]. by apply IH.
  - by exists x, s.
Qed.

Lemma trim_hasText s : hasText s → trim s ≠ [].
Proof.
  intros H. apply trimStart_hasText in H as (c & rest & E & Hc).
  unfold trim, trimEnd. rewrite E.
  destruct (trimStart_hasText (reverse (c :: rest))) as (c' & r' & -> & _).
  - exists c. split; [|done]. rewrite elem_of_reverse. left.
  - intros Hr. apply (f_equal length) in Hr.
    rewrite length_reverse in Hr. simpl in Hr. lia.
Qed.

(** X21: a selected host with at least one code unit that is not white
    space gets its cycle started: the first state the cycle gives the
    status bar is Syncing, whatever else is missing. *)
Theorem host_with_text_enters_syncing (w : World) (s : State)
    (h : jsstring)
  (Hhost : currentHost s = Some h) (Htext : hasText h) :
  ∃ rest,
    states (trace (snd (runSyncCommand w s)))
    = states (trace s) ++ SyncState.Syncing :: rest.
Proof.
  apply trim_hasText in Htext.
  destruct (workspaceFolder w) as [p|] eqn:Hp.
  - destruct (runSyncCommand_cases w s h p Hhost Htext Hp)
      as [(m & _ & ->) | [(_ & _ & ->) | (_ & _ & ->)]]; simpl;
      rewrite states_app; by eexists.
  - rewrite (runSyncCommand_no_workspace w s h) by done. simpl.
    rewrite states_app. by eexists.
Qed.

Lemma host_with_text_enters_syncing_witness :
  ∃ rest,
    states (trace (snd (runSyncCommand (Sample.bare Sample.ok)
                          (Sample.started DeletionMode.Off))))
    = [SyncState.Init; SyncState.Syncing] ++ rest.
Proof.
  destruct (host_with_text_enters_syncing (Sample.bare Sample.ok)
              (Sample.started DeletionMode.Off) Sample.box eq_refl)
    as [rest H].
  - exists 98%N. split; [|reflexivity].
    apply (bool_decide_unpack (98%N ∈ Sample.box)). vm_compute. exact I.
  - exists rest. rewrite H. reflexivity.
Defined.

Lemma change_prefix_one_line (c : N) (rest : jsstring) :
  newline ∉ c :: rest →
  split newline (js "change:" ++ c :: rest) = [js "change:" ++ c :: rest].
Proof.
  intros Hn. apply split_one. split; [done|].
  rewrite elem_of_app. intros [H | H]; [|done].
  revert H. apply (bool_decide_unpack (newline ∉ js "change:")).
  vm_compute. exact I.
Qed.

(** X22: the filter looks at the seven code units of "change:" and the name
    is cut after eight: an output of one line that starts with "change:" is
    one changed line whatever code unit comes eighth, and the name logged
    for it is what follows that eighth unit, trimmed: the unit is dropped
    whether it is a space or not. *)
Theorem fileName_drops_eighth_unit (c : N) (rest : jsstring)
  (Hline : newline ∉ c :: rest) :
  changedLines (js "change:" ++ c :: rest) = [js "change:" ++ c :: rest] ∧
  fileName <$> changedLines (js "change:" ++ c :: rest) = [trim rest].
Proof.
  assert (Hc : changedLines (js "change:" ++ c :: rest)
               = [js "change:" ++ c :: rest]).
  { unfold changedLines. rewrite change_prefix_one_line by done.
    rewrite filter_cons_True; [done|].
    apply Is_true_true. apply startsWith_spec. by eexists. }
  split; [done|]. rewrite Hc.
  assert (E : js "change:" = [99; 104; 97; 110; 103; 101; 58]%N)
    by (vm_compute; reflexivity).
  rewrite E. reflexivity.
Qed.

Lemma fileName_drops_eighth_unit_witness :
  changedLines (js "change:" ++ 120%N :: js "y.txt")
  = [js "change:" ++ 120%N :: js "y.txt"] ∧
  fileName <$> changedLines (js "change:" ++ 120%N :: js "y.txt")
  = [js "y.txt"].
Proof.
  assert (Hn : newline ∉ 120%N :: js "y.txt").
  { apply (bool_decide_unpack (newline ∉ 120%N :: js "y.txt")).
    vm_compute. exact I. }
  destruct (fileName_drops_eighth_unit 120%N (js "y.txt") Hn) as [H1 H2].
  split; [exact H1|]. rewrite H2. vm_compute. reflexivity.
Defined.

(** ** Change events *)

(** X24: change events are not coalesced and are not made to wait: with a
    host selected and a folder open, two events on file resources in a row
    each start a process before any callback has run, so that both
    transfers are pending together, both commands built from the one
    deletion mode the events find; an event on a resource of another
    scheme does nothing at all. *)
Theorem change_events_are_not_coalesced (w1 w2 : World) (s : State)
    (h p1 p2 : jsstring)
  (Hhost : currentHost s = Some h) (Htrim : trim h ≠ [])
  (Hfolder1 : workspaceFolder w1 = Some p1)
  (Hfolder2 : workspaceFolder w2 = Some p2) :
  let c1 := command (deletionMode s) p1 (dest_path h) in
  let c2 := command (deletionMode s) p2 (dest_path h) in
  let first := onDidChange w1 (js "file") s in
  let second := onDidChange w2 (js "file") (snd first) in
  fst first = Some (mkPending (startTime w1) c1 p1) ∧
  fst second = Some (mkPending (startTime w2) c2 p2) ∧
  execs (trace (snd second)) = execs (trace s) ++ [c1; c2] ∧
  deletionMode (snd second) = deletionMode s ∧
  ∀ scheme, scheme ≠ js "file" → onDidChange w1 scheme s = (None, s).
Proof.
  intros c1 c2 first second. subst second first c2 c1.
  rewrite (onDidChange_file_exec w1 s h p1) by done. simpl.
  set (s1 := record _ s).
  rewrite (onDidChange_file_exec w2 s1 h p2) by done. simpl.
  split; [done|]. split; [done|]. split.
  - rewrite !execs_app. simpl. by rewrite <- app_assoc.
  - split; [done|]. intros scheme Hs. unfold onDidChange.
    by rewrite bool_decide_eq_false_2.
Qed.

Lemma change_events_are_not_coalesced_witness :
  length
    (execs (trace (snd (onDidChange (Sample.world Sample.ok) (js "file")
                          (snd (onDidChange (Sample.world Sample.failed)
                                  (js "file")
                                  (Sample.started DeletionMode.Off)))))))
  = 2%nat.
Proof.
  assert (Ht : trim Sample.box ≠ []) by (vm_compute; discriminate).
  destruct (change_events_are_not_coalesced (Sample.world Sample.failed)
              (Sample.world Sample.ok) (Sample.started DeletionMode.Off)
              Sample.box (js "/home/u/app") (js "/home/u/app")
              eq_refl Ht eq_refl eq_refl) as (_ & _ & H & _).
  rewrite H. reflexivity.
Defined.

(** ** The text of the status bar item *)

(** X23: a redraw without a state, the one a change of deletion mode asks
    for, keeps the text and appends a flame to it when the mode is not Off:
    after [n] such redraws the text has [n] more flames. The next redraw
    with a state, whichever of the four it is, forgets all of that text and
    writes the text of the state followed by one flame. *)
Theorem flames_accumulate (w : World) (now : Z) (mode : DeletionMode.t)
    (text : jsstring) (timestamp : option Z) (n : nat)
  (Hmode : mode ≠ DeletionMode.Off) :
  let redrawn :=
    Nat.iter n (λ t, statusBarText w now mode t None timestamp) text in
  redrawn = text ++ concat (replicate n (js " $(flame)")) ∧
  statusBarText w now mode redrawn (Some SyncState.Init) timestamp
  = js "[select host]" ++ js " $(flame)" ∧
  statusBarText w now mode redrawn (Some SyncState.Syncing) timestamp
  = (js "$(sync) " ++ toLocaleTimeString w now) ++ js " $(flame)" ∧
  statusBarText w now mode redrawn (Some SyncState.Synced) timestamp
  = (js "$(check) "
     ++ match timestamp with
        | Some t => if decide (t = 0%Z) then [] else toLocaleTimeString w t
        | None => []
        end) ++ js " $(flame)" ∧
  statusBarText w now mode redrawn (Some SyncState.Error) timestamp
  = js "$(error) Error" ++ js " $(flame)".
Proof.
  intros redrawn. subst redrawn. split.
  - induction n as [|n IH]; simpl.
    + by rewrite app_nil_r.
    + rewrite IH. unfold statusBarText. rewrite decide_True by done.
      rewrite <- app_assoc. f_equal.
      clear IH. induction n as [|n IH]; simpl.
      * by rewrite app_nil_r.
      * rewrite <- app_assoc. by rewrite IH.
  - unfold statusBarText. by rewrite !decide_True.
Qed.

Lemma flames_accumulate_witness :
  Nat.iter 2
    (λ t, statusBarText (Sample.world Sample.ok) 0 DeletionMode.On t None None)
    (js "[select host]")
  = js "[select host] $(flame) $(flame)" ∧
  statusBarText (Sample.world Sample.ok) 0 DeletionMode.On
    (js "[select host] $(flame) $(flame)") (Some SyncState.Error) None
  = js "$(error) Error $(flame)".
Proof.
  destruct (flames_accumulate (Sample.world Sample.ok) 0 DeletionMode.On
              (js "[select host]") None 2 ltac:(discriminate))
    as (H1 & _ & _ & _ & H4).
  assert (E : Nat.iter 2
                (λ t, statusBarText (Sample.world Sample.ok) 0
                        DeletionMode.On t None None) (js "[select host]")
              = js "[select host] $(flame) $(flame)").
  { rewrite H1. vm_compute. reflexivity. }
  split; [exact E|]. rewrite <- E, H4. vm_compute. reflexivity.
Defined.
